(** * sctools.dimensionality: the PCA wrapper and its variance plot

    A shallow embedding of [DimensionalityReduction.run_pca] and
    [DimensionalityReduction.plot_pca_variance]
    (src/python/sctools/dimensionality.py).

    The Python objects live in an explicit store: an annotated dataset is a
    heap cell, [self.adata] is a reference to one, [copy()] and the column
    indexing [adata[:, mask]] allocate new cells, and two names for the same
    object are the same location.  The decomposition itself ([sc.tl.pca]) is
    an external routine: it is a parameter of the development, and what the
    wrapper needs from it is stated as explicit contracts. *)

From stdpp Require Import base option list gmap strings pretty.

Open Scope string_scope.
Open Scope list_scope.
Open Scope Z_scope.

(** ** Exceptions *)

(** A Python exception object: its class and its message. *)
Record pyexn := PyExn { exn_class : string; exn_msg : string }.

(** What reaches the caller: an exception created by a [raise] statement of
    this module, or one that was raised inside a library call and travels
    through the wrapper (the innermost frame of the traceback). *)
Inductive raised :=
| Here (e : pyexn)
| Lib (callee : string) (e : pyexn).

Inductive outcome (A : Type) :=
| Ret (a : A)
| Raise (e : raised).
Arguments Ret {A} a.
Arguments Raise {A} e.

Definition ValueError (msg : string) : pyexn := PyExn "ValueError" msg.
Definition KeyError (key : string) : pyexn := PyExn "KeyError" key.

Definition is_ret {A} (o : outcome A) : bool :=
  match o with Ret _ => true | Raise _ => false end.

(** ** Boolean masks *)

(** [l[mask]]: the entries of [l] at the positions where [mask] is true. *)
Fixpoint mask_filter {A} (mask : list bool) (l : list A) : list A :=
  match mask, l with
  | b :: mask', x :: l' =>
      if b then x :: mask_filter mask' l' else mask_filter mask' l'
  | _, _ => []
  end.

(** [dst[mask] = src]: the entries of [dst] at the true positions are
    replaced, in order, by the entries of [src]. *)
Fixpoint mask_scatter {A} (mask : list bool) (dst src : list A) : list A :=
  match mask, dst with
  | b :: mask', d :: dst' =>
      if b then
        match src with
        | s :: src' => s :: mask_scatter mask' dst' src'
        | [] => d :: mask_scatter mask' dst' []
        end
      else d :: mask_scatter mask' dst' src
  | _, _ => dst
  end.

(** [sum(mask)]: the number of true entries. *)
Definition count_true (mask : list bool) : nat :=
  length (filter (λ b, b = true) mask).

Definition count_false (mask : list bool) : nat :=
  length (filter (λ b, b = false) mask).

(** The position of gene [i] among the flagged genes: the number of true
    entries before position [i]. *)
Definition rank_true (mask : list bool) (i : nat) : nat :=
  count_true (take i mask).

(** ** Python slices and ranges *)

(** [l[:n]] for an integer [n]: a negative stop counts from the end, and a
    stop beyond either end is clamped, never an error. *)
Definition slice_to {A} (n : Z) (l : list A) : list A :=
  if 0 <=? n then take (Z.to_nat n) l
  else take (length l - Z.to_nat (- n))%nat l.

(** [range(start, stop, step)] for a positive step. *)
Fixpoint range_go (fuel : nat) (start step : Z) : list Z :=
  match fuel with
  | O => []
  | S fuel' => start :: range_go fuel' (start + step) step
  end.

Definition py_range (start stop step : Z) : list Z :=
  range_go (Z.to_nat ((stop - start + step - 1) / step)) start step.

(** ** Arrays, figures and the annotated dataset *)

(** A two-dimensional numpy array over the float type [F]: its shape and its
    rows.  The shape is kept apart from the rows, as numpy does: an array
    with no rows still has a column count. *)
Record ndarray (F : Type) := NdArray {
  nrow : nat;
  ncol : nat;
  rows : list (list F)
}.
Arguments NdArray {F} _ _ _.
Arguments nrow {F} _.
Arguments ncol {F} _.
Arguments rows {F} _.

(** [uns['pca']]: a dictionary of one-dimensional float arrays
    (['variance'], ['variance_ratio']). *)
Abbreviation info_dict F := (gmap string (list F)).

(** The annotated dataset (AnnData), restricted to what the wrapper touches:
    the cells x genes matrix, the boolean columns of the per-gene table
    [var], and the result slots [obsm], [varm] and [uns]. *)
Record AnnData (F : Type) := MkAnnData {
  X : ndarray F;
  var : gmap string (list bool);
  obsm : gmap string (ndarray F);
  varm : gmap string (ndarray F);
  uns : gmap string (info_dict F)
}.
Arguments MkAnnData {F} _ _ _ _ _.
Arguments X {F} _.
Arguments var {F} _.
Arguments obsm {F} _.
Arguments varm {F} _.
Arguments uns {F} _.

(** One line drawn by [ax.plot(x, y, fmt)]. *)
Record line2d (F : Type) := Line2D {
  xdata : list Z;
  ydata : list F;
  fmt : string
}.
Arguments Line2D {F} _ _ _.
Arguments xdata {F} _.
Arguments ydata {F} _.
Arguments fmt {F} _.

(** A matplotlib axes, as the calls made on it leave it. *)
Record axes (F : Type) := Axes {
  ax_lines : list (line2d F);
  ax_xlabel : string;
  ax_ylabel : string;
  ax_title : string;
  ax_yscale : string;
  ax_xticks : option (list Z);
  ax_grid : bool;
  ax_hlines : list F
}.
Arguments Axes {F} _ _ _ _ _ _ _ _.
Arguments ax_lines {F} _.
Arguments ax_xlabel {F} _.
Arguments ax_ylabel {F} _.
Arguments ax_title {F} _.
Arguments ax_yscale {F} _.
Arguments ax_xticks {F} _.
Arguments ax_grid {F} _.
Arguments ax_hlines {F} _.

(** The figure of [plt.subplots(1, 2, figsize=figsize)]. *)
Record figure (F : Type) := Figure {
  fig_size : F * F;
  fig_ax1 : axes F;
  fig_ax2 : axes F
}.
Arguments Figure {F} _ _ _.
Arguments fig_size {F} _.
Arguments fig_ax1 {F} _.
Arguments fig_ax2 {F} _.

(** ** The store *)

Abbreviation loc := nat (only parsing).

(** The state a call runs in: the object store, the [adata] attribute of
    the wrapper instance, standard output, the figures shown on screen and
    the image files written. *)
Record world (F : Type) := World {
  heap : list (AnnData F);
  self_adata : loc;
  stdout : list string;
  shown : list (figure F);
  files : gmap string (figure F)
}.
Arguments World {F} _ _ _ _ _.
Arguments heap {F} _.
Arguments self_adata {F} _.
Arguments stdout {F} _.
Arguments shown {F} _.
Arguments files {F} _.

(** What [run_pca] returns: [None], the info dictionary, the dataset
    handle, or the pair of both. *)
Inductive retval (F : Type) :=
| RNone
| RInfo (info : info_dict F)
| RHandle (h : loc)
| RHandleInfo (h : loc) (info : info_dict F).
Arguments RNone {F}.
Arguments RInfo {F} _.
Arguments RHandle {F} _.
Arguments RHandleInfo {F} _ _.

(** The handle inside a return value, if it has one. *)
Definition returned_handle {F} (r : retval F) : option loc :=
  match r with
  | RHandle h | RHandleInfo h _ => Some h
  | RNone | RInfo _ => None
  end.

(** The keyword arguments the wrapper passes to [sc.tl.pca]. *)
Record pca_args := PcaArgs {
  arg_n_comps : Z;
  arg_svd_solver : string;
  arg_random_state : Z;
  arg_return_info : bool
}.

(** ** The state-and-exception monad *)

Definition M (F : Type) (A : Type) : Type := world F → outcome A * world F.

#[global] Instance M_ret {F} : MRet (M F) := λ A a w, (Ret a, w).
#[global] Instance M_bind {F} : MBind (M F) := λ A B k m w,
  match m w with
  | (Ret a, w') => k a w'
  | (Raise e, w') => (Raise e, w')
  end.

Definition raise {F A} (e : raised) : M F A := λ w, (Raise e, w).

(** A library call that either fails or returns. *)
Definition lift_lib {F A} (callee : string) (r : pyexn + A) : M F A :=
  match r with
  | inl e => raise (Lib callee e)
  | inr a => mret a
  end.

(** The two messages the call prints (lines 147 and 154). *)
Definition announce (n_comps : Z) : string :=
  "Running PCA with " +:+ pretty n_comps +:+ " components".

Definition announce_hvg (hv : list bool) : string :=
  "Using " +:+ pretty (count_true hv) +:+ " highly variable genes for PCA".

(** ** Store and library operations *)

Section operations.
Context {F : Type}.

(** The float constants and operations the module uses: [0.0] of
    [np.zeros], the addition of [np.cumsum], the product and the literal
    [100] of [variance_ratio * 100]. *)
Variable fzero : F.
Variable fadd fmul : F → F → F.
Variable of_int : Z → F.

(** The external decomposition routine [sc.tl.pca(adata, ...)]: it mutates
    the dataset it is given and either returns or raises. *)
Variable sc_tl_pca : AnnData F → pca_args → option pyexn * AnnData F.

Definition print (s : string) : M F unit := λ w,
  (Ret tt, World (heap w) (self_adata w) (stdout w ++ [s]) (shown w) (files w)).

Definition get_self : M F loc := λ w, (Ret (self_adata w), w).

Definition set_self (l : loc) : M F unit := λ w,
  (Ret tt, World (heap w) l (stdout w) (shown w) (files w)).

Definition set_heap (h : list (AnnData F)) (w : world F) : world F :=
  World h (self_adata w) (stdout w) (shown w) (files w).

(** A new object. *)
Definition alloc (a : AnnData F) : M F loc := λ w,
  (Ret (length (heap w)), set_heap (heap w ++ [a]) w).

(** Reading through a reference.  References of a running program never
    dangle; the error case only makes the operation total. *)
Definition deref (l : loc) : M F (AnnData F) := λ w,
  match heap w !! l with
  | Some a => (Ret a, w)
  | None => (Raise (Lib "store" (PyExn "ReferenceError" "")), w)
  end.

Definition store (l : loc) (a : AnnData F) : M F unit := λ w,
  (Ret tt, set_heap (<[l:=a]> (heap w)) w).

(** [adata.copy()] *)
Definition copy (l : loc) : M F loc :=
  a ← deref l; alloc a.

(** ['name' in adata.var.columns] *)
Definition has_column (l : loc) (name : string) : M F bool :=
  a ← deref l; mret (bool_decide (is_Some (var a !! name))).

(** [adata.var.name] *)
Definition var_column (l : loc) (name : string) : M F (list bool) :=
  a ← deref l;
  lift_lib "pandas" (from_option inr (inl (PyExn "AttributeError" name)) (var a !! name)).

Definition select_rows (mask : list bool) (m : ndarray F) : ndarray F :=
  let kept := mask_filter mask (rows m) in
  NdArray (length kept) (ncol m) kept.

Definition select_cols (mask : list bool) (m : ndarray F) : ndarray F :=
  NdArray (nrow m) (count_true mask) (mask_filter mask <$> rows m).

(** The dataset [adata[:, mask]] denotes: the genes where [mask] is true,
    all cells.  The per-gene parts ([X] columns, [var], [varm]) are
    restricted, the per-cell and unstructured parts are kept. *)
Definition subset_vars (mask : list bool) (a : AnnData F) : AnnData F :=
  MkAnnData (select_cols mask (X a))
            (mask_filter mask <$> var a)
            (obsm a)
            (select_rows mask <$> varm a)
            (uns a).

(** [adata[:, mask]]: a new object; writing to it never reaches the parent
    (a view is made an actual copy on the first write). *)
Definition getitem_vars (l : loc) (mask : list bool) : M F loc :=
  a ← deref l; alloc (subset_vars mask a).

(** [adata.shape[1]] *)
Definition n_vars (a : AnnData F) : nat := ncol (X a).

(** [adata.shape[0]] *)
Definition n_obs (a : AnnData F) : nat := nrow (X a).

(** The dataset with one slot entry assigned. *)
Definition with_obsm (k : string) (v : ndarray F) (a : AnnData F) : AnnData F :=
  MkAnnData (X a) (var a) (<[k:=v]> (obsm a)) (varm a) (uns a).

Definition with_varm (k : string) (v : ndarray F) (a : AnnData F) : AnnData F :=
  MkAnnData (X a) (var a) (obsm a) (<[k:=v]> (varm a)) (uns a).

Definition with_uns (k : string) (v : info_dict F) (a : AnnData F) : AnnData F :=
  MkAnnData (X a) (var a) (obsm a) (varm a) (<[k:=v]> (uns a)).

Definition obsm_get (l : loc) (k : string) : M F (ndarray F) :=
  a ← deref l;
  lift_lib "anndata" (from_option inr (inl (KeyError k)) (obsm a !! k)).

Definition obsm_set (l : loc) (k : string) (v : ndarray F) : M F unit :=
  a ← deref l; store l (with_obsm k v a).

Definition varm_has (l : loc) (k : string) : M F bool :=
  a ← deref l; mret (bool_decide (is_Some (varm a !! k))).

Definition varm_get (l : loc) (k : string) : M F (ndarray F) :=
  a ← deref l;
  lift_lib "anndata" (from_option inr (inl (KeyError k)) (varm a !! k)).

Definition varm_set (l : loc) (k : string) (v : ndarray F) : M F unit :=
  a ← deref l; store l (with_varm k v a).

Definition uns_has (l : loc) (k : string) : M F bool :=
  a ← deref l; mret (bool_decide (is_Some (uns a !! k))).

Definition uns_get (l : loc) (k : string) : M F (info_dict F) :=
  a ← deref l;
  lift_lib "anndata" (from_option inr (inl (KeyError k)) (uns a !! k)).

Definition uns_set (l : loc) (k : string) (v : info_dict F) : M F unit :=
  a ← deref l; store l (with_uns k v a).

(** [np.zeros((r, c))]: negative dimensions are refused. *)
Definition np_zeros (r : nat) (c : Z) : pyexn + ndarray F :=
  if c <? 0 then inl (ValueError "negative dimensions are not allowed")
  else inr (NdArray r (Z.to_nat c) (replicate r (replicate (Z.to_nat c) fzero))).

(** numpy broadcasting of a row to [c] columns and of an array to
    [(r, c)]: an axis of length one is repeated. *)
Definition broadcast_row (c : nat) (row : list F) : list F :=
  match row with
  | [x] => replicate c x
  | _ => row
  end.

Definition broadcastable (r c : nat) (v : ndarray F) : bool :=
  (bool_decide (nrow v = r) || bool_decide (nrow v = 1%nat))
  && (bool_decide (ncol v = c) || bool_decide (ncol v = 1%nat)).

Definition broadcast_to (r c : nat) (v : ndarray F) : list (list F) :=
  let rs := if bool_decide (ncol v = c) then rows v
            else broadcast_row c <$> rows v in
  if bool_decide (nrow v = r) then rs
  else match rs with
       | [row] => replicate r row
       | _ => rs
       end.

(** [dst[mask] = v] for a boolean mask over the rows of [dst]: [v] must
    broadcast to the shape of the selected rows. *)
Definition setitem_mask (dst : ndarray F) (mask : list bool) (v : ndarray F)
  : pyexn + ndarray F :=
  if negb (bool_decide (length mask = nrow dst)) then
    inl (PyExn "IndexError" "boolean index did not match indexed array along axis 0")
  else if negb (broadcastable (count_true mask) (ncol dst) v) then
    inl (ValueError "shape mismatch: value array could not be broadcast to indexing result")
  else
    inr (NdArray (nrow dst) (ncol dst)
           (mask_scatter mask (rows dst)
              (broadcast_to (count_true mask) (ncol dst) v))).

(** The call [sc.tl.pca(adata_use, ...)] on the object at [l]: whatever the
    routine did to the object stays done, and its exception, if any,
    travels on. *)
Definition call_pca (l : loc) (args : pca_args) : M F unit :=
  a ← deref l;
  let '(r, a') := sc_tl_pca a args in
  store l a';;
  match r with
  | Some e => raise (Lib "sc.tl.pca" e)
  | None => mret tt
  end.

(** [use_highly_variable and 'highly_variable' in adata.var.columns] *)
Definition restrict_to_hvg (use_highly_variable : bool) (adata : loc) : M F bool :=
  if use_highly_variable then has_column adata "highly_variable" else mret false.

(** [return_info and 'pca' in adata.uns] *)
Definition wants_info (return_info : bool) (adata : loc) : M F bool :=
  if return_info then uns_has adata "pca" else mret false.

(** ** run_pca (lines 95-185) *)

(** Line 150: [adata = self.adata if inplace else self.adata.copy()] *)
Definition working_handle (inplace : bool) : M F loc :=
  self ← get_self;
  if inplace then mret self else copy self.

(** Lines 153-157: the dataset the decomposition runs on. *)
Definition handle_in_use (use_highly_variable : bool) (adata : loc) : M F loc :=
  restrict ← restrict_to_hvg use_highly_variable adata;
  if restrict : bool then
    hv ← var_column adata "highly_variable";
    print (announce_hvg hv);;
    hv ← var_column adata "highly_variable";
    getitem_vars adata hv
  else mret adata.

(** Lines 171-173: the loadings of [adata_use] are scattered into a
    zero matrix with one row per gene of [adata]. *)
Definition copy_loadings (n_comps : Z) (adata adata_use : loc) : M F unit :=
  has_pcs ← varm_has adata_use "PCs";
  if has_pcs : bool then
    a ← deref adata;
    z ← lift_lib "numpy" (np_zeros (n_vars a) n_comps);
    varm_set adata "PCs" z;;
    v ← varm_get adata_use "PCs";
    dst ← varm_get adata "PCs";
    hv ← var_column adata "highly_variable";
    dst' ← lift_lib "numpy" (setitem_mask dst hv v);
    varm_set adata "PCs" dst'
  else mret tt.

(** Lines 170-175: the results of [adata_use] are copied to [adata].
    ([hasattr(adata_use, 'uns')] of line 174 holds of every dataset.) *)
Definition copy_results (n_comps : Z) (adata adata_use : loc) : M F unit :=
  e ← obsm_get adata_use "X_pca";
  obsm_set adata "X_pca" e;;
  copy_loadings n_comps adata adata_use;;
  has_pca ← uns_has adata_use "pca";
  if has_pca : bool then
    info ← uns_get adata_use "pca";
    uns_set adata "pca" info
  else mret tt.

(** Lines 178-185: the instance is updated and the value returned. *)
Definition give_back (return_info inplace : bool) (adata : loc) : M F (retval F) :=
  if inplace then
    set_self adata;;
    give ← wants_info return_info adata;
    if give : bool then info ← uns_get adata "pca"; mret (RInfo info)
    else mret RNone
  else
    give ← wants_info return_info adata;
    if give : bool then info ← uns_get adata "pca"; mret (RHandleInfo adata info)
    else mret (RHandle adata).

Definition run_pca (n_comps : Z) (use_highly_variable : bool)
    (svd_solver : string) (random_state : Z) (return_info inplace : bool)
  : M F (retval F) :=
  print (announce n_comps);;
  (* Create a copy if not inplace *)
  adata ← working_handle inplace;
  (* Check for highly variable genes if requested *)
  adata_use ← handle_in_use use_highly_variable adata;
  (* Run PCA *)
  call_pca adata_use (PcaArgs n_comps svd_solver random_state return_info);;
  (* Copy PCA results to the original object if using HVGs *)
  copy_back ← restrict_to_hvg use_highly_variable adata;
  (if copy_back : bool then copy_results n_comps adata adata_use else mret tt);;
  (* Update the instance *)
  give_back return_info inplace adata.

(** ** The net effect of the copy-back on the dataset *)

(** Lines 171-173 on the dataset [a], with the dataset [u] the routine
    ran on: the outcome and what [a] has become by then. *)
Definition merge_loadings (n_comps : Z) (a u : AnnData F)
  : outcome unit * AnnData F :=
  match varm u !! "PCs" with
  | None => (Ret tt, a)
  | Some v =>
      match np_zeros (n_vars a) n_comps with
      | inl ex => (Raise (Lib "numpy" ex), a)
      | inr z =>
          match var a !! "highly_variable" with
          | None =>
              (Raise (Lib "pandas" (PyExn "AttributeError" "highly_variable")),
               with_varm "PCs" z a)
          | Some hv =>
              match setitem_mask z hv v with
              | inl ex => (Raise (Lib "numpy" ex), with_varm "PCs" z a)
              | inr p => (Ret tt, with_varm "PCs" p a)
              end
          end
      end
  end.

(** Lines 170-175 on the dataset [a]. *)
Definition merge_results (n_comps : Z) (a u : AnnData F)
  : outcome unit * AnnData F :=
  match obsm u !! "X_pca" with
  | None => (Raise (Lib "anndata" (KeyError "X_pca")), a)
  | Some e =>
      match merge_loadings n_comps (with_obsm "X_pca" e a) u with
      | (Raise ex, a') => (Raise ex, a')
      | (Ret _, a') =>
          (Ret tt, match uns u !! "pca" with
                   | Some info => with_uns "pca" info a'
                   | None => a'
                   end)
      end
  end.

(** The value lines 178-185 return for the dataset [a] at handle [adata]. *)
Definition returned (return_info inplace : bool) (adata : loc) (a : AnnData F)
  : retval F :=
  match (if return_info then uns a !! "pca" else None), inplace with
  | Some info, true => RInfo info
  | None, true => RNone
  | Some info, false => RHandleInfo adata info
  | None, false => RHandle adata
  end.

End operations.

(** ** plot_pca_variance (lines 187-268) *)

Section plotting.
Context {F : Type}.
Variable fadd fmul : F → F → F.
Variable of_int : Z → F.

(** [np.cumsum]: the running sums, starting from the first entry. *)
Fixpoint cumsum_from (acc : F) (l : list F) : list F :=
  match l with
  | [] => []
  | x :: l' => fadd acc x :: cumsum_from (fadd acc x) l'
  end.

Definition np_cumsum (l : list F) : list F :=
  match l with
  | [] => []
  | x :: l' => x :: cumsum_from x l'
  end.

(** [arr * 100] *)
Definition times_100 (l : list F) : list F := (λ x, fmul x (of_int 100)) <$> l.

Definition empty_axes : axes F := Axes [] "" "" "" "linear" None false [].

(** [ax.plot(x, y, fmt)]: matplotlib refuses data of different lengths. *)
Definition ax_plot (xs : list Z) (ys : list F) (fmt : string) (ax : axes F)
  : pyexn + axes F :=
  if bool_decide (length xs = length ys) then
    inr (Axes (ax_lines ax ++ [Line2D xs ys fmt]) (ax_xlabel ax) (ax_ylabel ax)
              (ax_title ax) (ax_yscale ax) (ax_xticks ax) (ax_grid ax)
              (ax_hlines ax))
  else
    inl (ValueError ("x and y must have same first dimension, but have shapes ("
                     +:+ pretty (length xs) +:+ ",) and ("
                     +:+ pretty (length ys) +:+ ",)")).

Definition set_xlabel (s : string) (ax : axes F) : axes F :=
  Axes (ax_lines ax) s (ax_ylabel ax) (ax_title ax) (ax_yscale ax)
       (ax_xticks ax) (ax_grid ax) (ax_hlines ax).

Definition set_ylabel (s : string) (ax : axes F) : axes F :=
  Axes (ax_lines ax) (ax_xlabel ax) s (ax_title ax) (ax_yscale ax)
       (ax_xticks ax) (ax_grid ax) (ax_hlines ax).

Definition set_title (s : string) (ax : axes F) : axes F :=
  Axes (ax_lines ax) (ax_xlabel ax) (ax_ylabel ax) s (ax_yscale ax)
       (ax_xticks ax) (ax_grid ax) (ax_hlines ax).

Definition set_yscale (s : string) (ax : axes F) : axes F :=
  Axes (ax_lines ax) (ax_xlabel ax) (ax_ylabel ax) (ax_title ax) s
       (ax_xticks ax) (ax_grid ax) (ax_hlines ax).

Definition set_xticks (t : list Z) (ax : axes F) : axes F :=
  Axes (ax_lines ax) (ax_xlabel ax) (ax_ylabel ax) (ax_title ax) (ax_yscale ax)
       (Some t) (ax_grid ax) (ax_hlines ax).

Definition grid (b : bool) (ax : axes F) : axes F :=
  Axes (ax_lines ax) (ax_xlabel ax) (ax_ylabel ax) (ax_title ax) (ax_yscale ax)
       (ax_xticks ax) b (ax_hlines ax).

Definition axhline (y : F) (ax : axes F) : axes F :=
  Axes (ax_lines ax) (ax_xlabel ax) (ax_ylabel ax) (ax_title ax) (ax_yscale ax)
       (ax_xticks ax) (ax_grid ax) (ax_hlines ax ++ [y]).

(** [plt.show()] and [plt.savefig(path)] *)
Definition show (fig : figure F) : M F unit := λ w,
  (Ret tt, World (heap w) (self_adata w) (stdout w) (shown w ++ [fig]) (files w)).

Definition savefig (path : string) (fig : figure F) : M F unit := λ w,
  (Ret tt, World (heap w) (self_adata w) (stdout w) (shown w)
                 (<[path:=fig]> (files w))).

(** The guard of line 240:
    ['pca' not in self.adata.uns or 'variance_ratio' not in self.adata.uns['pca']]. *)
Definition diagnostics_absent (a : AnnData F) : bool :=
  match uns a !! "pca" with
  | None => true
  | Some info => negb (bool_decide (is_Some (info !! "variance_ratio")))
  end.

(** The exception of line 241. *)
Definition invalid_state : pyexn :=
  ValueError "PCA hasn't been performed yet or variance_ratio information is missing.".

(** [min(n_pcs, len(variance_ratio))] (line 248) *)
Definition clamp_n_pcs (n_pcs : Z) (variance_ratio : list F) : Z :=
  Z.min n_pcs (Z.of_nat (length variance_ratio)).

(** Lines 250-261: the per-component chart. *)
Definition variance_axes (n_pcs : Z) (log : bool) (variance_ratio : list F)
  : pyexn + axes F :=
  match ax_plot (py_range 1 (n_pcs + 1) 1)
                (times_100 (slice_to n_pcs variance_ratio)) "o-" empty_axes with
  | inl e => inl e
  | inr ax1 =>
      let ax1 := set_xlabel "Principal Component" ax1 in
      let ax1 := set_ylabel "Explained Variance Ratio (%)" ax1 in
      let ax1 := if log then set_yscale "log" ax1 else ax1 in
      let ax1 := set_title "PCA Explained Variance" ax1 in
      let ax1 := set_xticks (py_range 1 (n_pcs + 1) 5) ax1 in
      inr (grid true ax1)
  end.

(** Lines 263-267: the cumulative chart. *)
Definition cumulative_axes (n_pcs : Z) (variance_cumsum : list F)
  : pyexn + axes F :=
  match ax_plot (py_range 1 (n_pcs + 1) 1)
                (times_100 (slice_to n_pcs variance_cumsum)) "o-" empty_axes with
  | inl e => inl e
  | inr ax2 =>
      let ax2 := set_xlabel "Number of Principal Components" ax2 in
      let ax2 := set_ylabel "Cumulative Explained Variance (%)" ax2 in
      inr (set_title "PCA Cumulative Explained Variance" ax2)
  end.

(** Modelled from the spec: the optional threshold marker line, drawn on
    the cumulative chart by the part of [plot_pca_variance] that the source
    file breaks off before. *)
Definition finished (threshold : option F) (fig : figure F) : figure F :=
  match threshold with
  | Some t => Figure (fig_size fig) (fig_ax1 fig) (axhline t (fig_ax2 fig))
  | None => fig
  end.

(** Modelled from the spec: the end of [plot_pca_variance], which the source
    file breaks off before (inside the statement of line 268).  The spec and
    the docstring give it: an optional threshold marker line on the
    cumulative chart; the figure is saved to [save_path] when one is given
    and displayed otherwise; the figure is returned when [return_fig] is
    set. *)
Definition finish_figure (threshold : option F) (save_path : option string)
    (return_fig : bool) (fig : figure F) : M F (option (figure F)) :=
  let fig := finished threshold fig in
  match save_path with
  | Some path => savefig path fig
  | None => show fig
  end;;
  mret (if return_fig then Some fig else None).

Definition plot_pca_variance (n_pcs : Z) (log : bool) (threshold : option F)
    (figsize : F * F) (save_path : option string) (return_fig : bool)
  : M F (option (figure F)) :=
  self ← get_self;
  a ← deref self;
  if diagnostics_absent a then raise (Here invalid_state)
  else
    (* Get variance data *)
    info ← uns_get self "pca";
    variance_ratio ← lift_lib "python"
      (from_option inr (inl (KeyError "variance_ratio")) (info !! "variance_ratio"));
    let variance_cumsum := np_cumsum variance_ratio in
    (* Limit to n_pcs *)
    let n_pcs := clamp_n_pcs n_pcs variance_ratio in
    (* Plot variance explained by each PC *)
    ax1 ← lift_lib "matplotlib" (variance_axes n_pcs log variance_ratio);
    (* Plot cumulative variance explained *)
    ax2 ← lift_lib "matplotlib" (cumulative_axes n_pcs variance_cumsum);
    finish_figure threshold save_path return_fig (Figure figsize ax1 ax2).

End plotting.

(** ** What the wrapper expects of the external routine *)

Section contracts.
Context {F : Type}.
Variable sc_tl_pca : AnnData F → pca_args → option pyexn * AnnData F.

(** The rows of an array agree with its shape. *)
Definition well_shaped (m : ndarray F) : Prop :=
  length (rows m) = nrow m ∧ Forall (λ row, length row = ncol m) (rows m).

(** The dataset the routine is run on: the flagged genes when restriction
    is requested and the flag column exists, the whole dataset otherwise
    (lines 153-157). *)
Definition dataset_used (use_highly_variable : bool) (a : AnnData F) : AnnData F :=
  match var a !! "highly_variable" with
  | Some hv => if use_highly_variable then subset_vars hv a else a
  | None => a
  end.

(** [use_highly_variable and 'highly_variable' in adata.var.columns], as a
    function of the dataset. *)
Definition restricted (use_highly_variable : bool) (a : AnnData F) : bool :=
  use_highly_variable && bool_decide (is_Some (var a !! "highly_variable")).

(** On return the routine has stored an embedding with one row per cell of
    the dataset it ran on and [n_comps] columns. *)
Definition returns_embedding : Prop :=
  ∀ a args a', sc_tl_pca a args = (None, a') →
    ∃ e, obsm a' !! "X_pca" = Some e ∧ nrow e = n_obs a
         ∧ Z.of_nat (ncol e) = arg_n_comps args.


(** The routine leaves the per-gene table alone. *)
Definition keeps_var : Prop :=
  ∀ a args r a', sc_tl_pca a args = (r, a') → var a' = var a.

(** The routine writes only its three result slots. *)
Definition writes_only_results : Prop :=
  ∀ a args r a', sc_tl_pca a args = (r, a') →
    X a' = X a ∧
    (∀ k, k ≠ "X_pca" → obsm a' !! k = obsm a !! k) ∧
    (∀ k, k ≠ "PCs" → varm a' !! k = varm a !! k) ∧
    (∀ k, k ≠ "pca" → uns a' !! k = uns a !! k).

(** The routine reads only the matrix and the per-gene table: on datasets
    that agree on them it raises the same exception, or returns having
    stored the same results. *)
Definition results_determined_by_data : Prop :=
  ∀ a b args,
    X a = X b → var a = var b →
    (sc_tl_pca a args).1 = (sc_tl_pca b args).1 ∧
    ((sc_tl_pca a args).1 = None →
     obsm (sc_tl_pca a args).2 !! "X_pca" = obsm (sc_tl_pca b args).2 !! "X_pca" ∧
     varm (sc_tl_pca a args).2 !! "PCs" = varm (sc_tl_pca b args).2 !! "PCs" ∧
     uns (sc_tl_pca a args).2 !! "pca" = uns (sc_tl_pca b args).2 !! "pca").

End contracts.

(** A computation whose exceptions all come out of library calls: none is
    created by a [raise] statement of this module. *)
Definition lib_only {F A} (m : M F A) : Prop :=
  ∀ w e w', m w = (Raise e, w') → ∃ callee ex, e = Lib callee ex.


(** The handle a call works on: the held one in place, a new object
    otherwise (line 150). *)
Definition target {F} (inplace : bool) (w : world F) : loc :=
  if inplace then self_adata w else length (heap w).

(** The store a call starts its work in: as it was in place, with the copy
    of the held dataset [a] appended otherwise. *)
Definition working_heap {F} (inplace : bool) (a : AnnData F) (w : world F)
  : list (AnnData F) :=
  if inplace then heap w else heap w ++ [a].

(** An all-zero row of [c] entries, and the number of such rows. *)
Definition zero_row {F} (fzero : F) (c : nat) : list F := replicate c fzero.

Definition count_zero_rows {F} `{EqDecision F} (fzero : F) (m : ndarray F) : nat :=
  length (filter (λ row, row = zero_row fzero (ncol m)) (rows m)).

(** The reading of "all-zero rows exactly at the unflagged genes": row [i]
    of the loadings is all zero if and only if gene [i] is not flagged. *)
Definition zero_rows_exactly_unflagged {F} (fzero : F) (hv : list bool)
    (p : ndarray F) : Prop :=
  ∀ i : nat, rows p !! i = Some (zero_row fzero (ncol p)) ↔ hv !! i = Some false.

(** ** An executable instance

    Integers stand for the floats, and a small stand-in for the
    decomposition: it refuses a component count outside
    [0 < n_comps < min(cells, genes)] (the bound of the 'arpack' solver),
    and otherwise stores an embedding of row sums, loadings that give each
    gene the spread of its column (zero for a gene that is constant across
    the cells, as its principal-component loadings are), and a decreasing
    variance sequence. *)

Definition column_of (j : nat) (m : ndarray Z) : list Z :=
  (λ row, default 0 (row !! j)) <$> rows m.

Definition spread (l : list Z) : Z :=
  match l with
  | [] => 0
  | x :: l' => foldr Z.max x l' - foldr Z.min x l'
  end.

Definition spread_pca (a : AnnData Z) (args : pca_args) : option pyexn * AnnData Z :=
  let k := arg_n_comps args in
  if (k <=? 0) || (Z.of_nat (n_obs a `min` n_vars a) <=? k) then
    (Some (ValueError "n_components must be strictly less than min(n_samples, n_features)"), a)
  else
    let c := Z.to_nat k in
    (None,
     MkAnnData (X a) (var a)
       (<["X_pca" := NdArray (n_obs a) c
                       ((λ row, replicate c (foldr Z.add 0 row)) <$> rows (X a))]>
          (obsm a))
       (<["PCs" := NdArray (n_vars a) c
                     ((λ j, replicate c (spread (column_of j (X a))))
                        <$> seq 0 (n_vars a))]>
          (varm a))
       (<["pca" := {["variance_ratio" := Z.of_nat <$> rev (seq 1 c)]}]> (uns a))).

(** Three cells and three genes; the first two genes are flagged, and the
    second one has the same expression in every cell. *)
Definition demo_adata : AnnData Z :=
  MkAnnData (NdArray 3 3 [[1; 5; 0]; [1; 5; 2]; [2; 5; 7]])
            {["highly_variable" := [true; true; false]]}
            ∅ ∅ ∅.

(** The same data without the flag column. *)
Definition plain_adata : AnnData Z :=
  MkAnnData (NdArray 3 3 [[1; 5; 0]; [1; 5; 2]; [2; 5; 7]]) ∅ ∅ ∅ ∅.

Definition world_of (a : AnnData Z) : world Z := World [a] 0%nat [] [] ∅.

Definition demo_run (a : AnnData Z) (n_comps : Z) (use_highly_variable inplace : bool)
  : outcome (retval Z) * world Z :=
  run_pca 0 spread_pca n_comps use_highly_variable "arpack" 42 false inplace (world_of a).

Definition demo_plot (w : world Z) (n_pcs : Z) (save_path : option string)
    (return_fig : bool) : outcome (option (figure Z)) * world Z :=
  plot_pca_variance Z.add Z.mul id n_pcs false None (10, 4) save_path return_fig w.

(** Three cells and three genes, every gene flagged. *)
Definition flagged_adata : AnnData Z :=
  MkAnnData (NdArray 3 3 [[1; 5; 0]; [1; 5; 2]; [2; 5; 7]])
            {["highly_variable" := [true; true; true]]}
            ∅ ∅ ∅.

(** A routine that stores an embedding of row sums and nothing else. *)
Definition embedding_only_pca (a : AnnData Z) (args : pca_args)
  : option pyexn * AnnData Z :=
  let c := Z.to_nat (arg_n_comps args) in
  (None,
   with_obsm "X_pca"
     (NdArray (n_obs a) c ((λ row, replicate c (foldr Z.add 0 row)) <$> rows (X a)))
     a).

(** ** Notions for the further properties *)

(** A computation that prints nothing, shows no figure and writes no file. *)
Definition silent {F A} (m : M F A) : Prop :=
  ∀ w, stdout (m w).2 = stdout w ∧ shown (m w).2 = shown w
       ∧ files (m w).2 = files w.

(** The info dictionary inside a return value, if it has one. *)
Definition returned_info {F} (r : retval F) : option (info_dict F) :=
  match r with
  | RInfo info | RHandleInfo _ info => Some info
  | RNone | RHandle _ => None
  end.

(** * Proofs *)

(** ** The store *)

Lemma lookup_snoc_new {A} (h : list A) (x : A) : (h ++ [x]) !! length h = Some x.
Proof. by rewrite lookup_app_r, Nat.sub_diag by lia. Qed.

Lemma lookup_snoc_old {A} (h : list A) (x y : A) (l : nat) :
  h !! l = Some y → (h ++ [x]) !! l = Some y.
Proof. intros Hl. by rewrite lookup_app_l by (by eapply lookup_lt_Some). Qed.

Lemma insert_snoc_new {A} (h : list A) (x y : A) :
  <[length h := y]> (h ++ [x]) = h ++ [y].
Proof. by rewrite insert_app_r_alt, Nat.sub_diag by lia. Qed.

Lemma insert_snoc_old {A} (h : list A) (x y a : A) (l : nat) :
  h !! l = Some a → <[l:=y]> (h ++ [x]) = <[l:=y]> h ++ [x].
Proof. intros Hl. by rewrite insert_app_l by (by eapply lookup_lt_Some). Qed.

Lemma lookup_insert_here {A} (h : list A) (y a : A) (l : nat) :
  h !! l = Some a → <[l:=y]> h !! l = Some y.
Proof. intros Hl. by rewrite list_lookup_insert_eq by (by eapply lookup_lt_Some). Qed.

Lemma lookup_insert_other {A} (h : list A) (y u : A) (l l' : nat) :
  l ≠ l' → h !! l' = Some u → <[l:=y]> h !! l' = Some u.
Proof. intros Hne Hl. by rewrite list_lookup_insert_ne. Qed.

Ltac heap_lookup :=
  simpl;
  eauto using lookup_insert_here, lookup_insert_other, lookup_snoc_new,
    lookup_snoc_old.

Arguments restrict_to_hvg : simpl never.
Arguments print : simpl never.
Arguments set_heap : simpl never.

Section running.
Context {F : Type}.
Variable fzero : F.
Variable sc_tl_pca : AnnData F → pca_args → option pyexn * AnnData F.

Lemma bind_run {A B} (m : M F A) (k : A → M F B) (w : world F) :
  (m ≫= k) w = match m w with
               | (Ret a, w') => k a w'
               | (Raise e, w') => (Raise e, w')
               end.
Proof. reflexivity. Qed.

Lemma deref_run (l : loc) (a : AnnData F) (w : world F) :
  heap w !! l = Some a → deref l w = (Ret a, w).
Proof. intros Hl. unfold deref. by rewrite Hl. Qed.

Lemma working_handle_run (inplace : bool) (a : AnnData F) (w : world F) :
  heap w !! self_adata w = Some a →
  working_handle inplace w =
    (Ret (target inplace w), if inplace then w else set_heap (heap w ++ [a]) w).
Proof.
  intros Hs. unfold working_handle, target, copy. rewrite bind_run. simpl.
  destruct inplace; [done|]. rewrite bind_run, (deref_run _ a) by done. done.
Qed.

Lemma store_run (l : loc) (a : AnnData F) (w : world F) :
  store l a w = (Ret tt, set_heap (<[l:=a]> (heap w)) w).
Proof. reflexivity. Qed.

Lemma set_heap_heap (h : list (AnnData F)) (w : world F) : heap (set_heap h w) = h.
Proof. reflexivity. Qed.

Lemma set_heap_twice (h h' : list (AnnData F)) (w : world F) :
  set_heap h (set_heap h' w) = set_heap h w.
Proof. reflexivity. Qed.

Lemma set_heap_same (w : world F) : set_heap (heap w) w = w.
Proof. by destruct w. Qed.


Lemma obsm_get_run (l : loc) (k : string) (a : AnnData F) (w : world F) :
  heap w !! l = Some a →
  obsm_get l k w =
    (match obsm a !! k with
     | Some v => Ret v
     | None => Raise (Lib "anndata" (KeyError k))
     end, w).
Proof.
  intros Hl. unfold obsm_get. rewrite bind_run, (deref_run _ a) by done.
  by destruct (obsm a !! k).
Qed.

Lemma varm_get_run (l : loc) (k : string) (a : AnnData F) (w : world F) :
  heap w !! l = Some a →
  varm_get l k w =
    (match varm a !! k with
     | Some v => Ret v
     | None => Raise (Lib "anndata" (KeyError k))
     end, w).
Proof.
  intros Hl. unfold varm_get. rewrite bind_run, (deref_run _ a) by done.
  by destruct (varm a !! k).
Qed.

Lemma uns_get_run (l : loc) (k : string) (a : AnnData F) (w : world F) :
  heap w !! l = Some a →
  uns_get l k w =
    (match uns a !! k with
     | Some v => Ret v
     | None => Raise (Lib "anndata" (KeyError k))
     end, w).
Proof.
  intros Hl. unfold uns_get. rewrite bind_run, (deref_run _ a) by done.
  by destruct (uns a !! k).
Qed.

Lemma var_column_run (l : loc) (k : string) (a : AnnData F) (w : world F) :
  heap w !! l = Some a →
  var_column l k w =
    (match var a !! k with
     | Some col => Ret col
     | None => Raise (Lib "pandas" (PyExn "AttributeError" k))
     end, w).
Proof.
  intros Hl. unfold var_column. rewrite bind_run, (deref_run _ a) by done.
  by destruct (var a !! k).
Qed.

Lemma obsm_set_run (l : loc) (k : string) (v : ndarray F) (a : AnnData F)
    (w : world F) :
  heap w !! l = Some a →
  obsm_set l k v w = (Ret tt, set_heap (<[l := with_obsm k v a]> (heap w)) w).
Proof. intros Hl. unfold obsm_set. by rewrite bind_run, (deref_run _ a). Qed.

Lemma varm_set_run (l : loc) (k : string) (v : ndarray F) (a : AnnData F)
    (w : world F) :
  heap w !! l = Some a →
  varm_set l k v w = (Ret tt, set_heap (<[l := with_varm k v a]> (heap w)) w).
Proof. intros Hl. unfold varm_set. by rewrite bind_run, (deref_run _ a). Qed.

Lemma uns_set_run (l : loc) (k : string) (v : info_dict F) (a : AnnData F)
    (w : world F) :
  heap w !! l = Some a →
  uns_set l k v w = (Ret tt, set_heap (<[l := with_uns k v a]> (heap w)) w).
Proof. intros Hl. unfold uns_set. by rewrite bind_run, (deref_run _ a). Qed.

Lemma varm_has_run (l : loc) (k : string) (a : AnnData F) (w : world F) :
  heap w !! l = Some a →
  varm_has l k w = (Ret (bool_decide (is_Some (varm a !! k))), w).
Proof. intros Hl. unfold varm_has. by rewrite bind_run, (deref_run _ a). Qed.

Lemma uns_has_run (l : loc) (k : string) (a : AnnData F) (w : world F) :
  heap w !! l = Some a →
  uns_has l k w = (Ret (bool_decide (is_Some (uns a !! k))), w).
Proof. intros Hl. unfold uns_has. by rewrite bind_run, (deref_run _ a). Qed.

Lemma has_column_run (l : loc) (k : string) (a : AnnData F) (w : world F) :
  heap w !! l = Some a →
  has_column l k w = (Ret (bool_decide (is_Some (var a !! k))), w).
Proof. intros Hl. unfold has_column. by rewrite bind_run, (deref_run _ a). Qed.

Lemma copy_loadings_run (n_comps : Z) (adata adata_use : loc) (a u : AnnData F)
    (w : world F) :
  adata ≠ adata_use →
  heap w !! adata = Some a →
  heap w !! adata_use = Some u →
  copy_loadings fzero n_comps adata adata_use w =
    ((merge_loadings fzero n_comps a u).1,
     set_heap (<[adata := (merge_loadings fzero n_comps a u).2]> (heap w)) w).
Proof.
  intros Hne Ha Hu. unfold copy_loadings, merge_loadings.
  rewrite bind_run, (varm_has_run _ _ u) by done.
  destruct (varm u !! "PCs") as [v|] eqn:Hv; simpl.
  2:{ by rewrite list_insert_id, set_heap_same. }
  rewrite bind_run, (deref_run _ a) by done. rewrite bind_run.
  destruct (np_zeros fzero (n_vars a) n_comps) as [ex|z] eqn:Hz; simpl.
  { by rewrite list_insert_id, set_heap_same. }
  unfold mret, M_ret. rewrite bind_run, (varm_set_run _ _ _ a) by done.
  rewrite bind_run, (varm_get_run _ _ u) by heap_lookup.
  rewrite Hv.
  rewrite bind_run, (varm_get_run _ _ (with_varm "PCs" z a))
    by heap_lookup.
  simpl. rewrite lookup_insert_eq.
  rewrite bind_run, (var_column_run _ _ (with_varm "PCs" z a))
    by heap_lookup.
  simpl. destruct (var a !! "highly_variable") as [hv|]; [|done].
  rewrite bind_run.
  destruct (setitem_mask z hv v) as [ex|p]; simpl; [done|].
  unfold mret, M_ret.
  rewrite (varm_set_run _ _ _ (with_varm "PCs" z a))
    by heap_lookup.
  simpl. rewrite list_insert_insert_eq. unfold with_varm; simpl.
  by rewrite insert_insert_eq.
Qed.

Lemma copy_results_run (n_comps : Z) (adata adata_use : loc) (a u : AnnData F)
    (w : world F) :
  adata ≠ adata_use →
  heap w !! adata = Some a →
  heap w !! adata_use = Some u →
  copy_results fzero n_comps adata adata_use w =
    ((merge_results fzero n_comps a u).1,
     set_heap (<[adata := (merge_results fzero n_comps a u).2]> (heap w)) w).
Proof.
  intros Hne Ha Hu. unfold copy_results, merge_results.
  rewrite bind_run, (obsm_get_run _ _ u) by done.
  destruct (obsm u !! "X_pca") as [e|] eqn:He; simpl.
  2:{ by rewrite list_insert_id, set_heap_same. }
  rewrite bind_run, (obsm_set_run _ _ _ a) by done.
  rewrite bind_run, (copy_loadings_run _ _ _ (with_obsm "X_pca" e a) u)
    by heap_lookup.
  simpl. rewrite list_insert_insert_eq.
  destruct (merge_loadings fzero n_comps (with_obsm "X_pca" e a) u)
    as [[[]|ex] a']; simpl; [|done].
  rewrite bind_run, (uns_has_run _ _ u) by heap_lookup.
  destruct (uns u !! "pca") as [info|] eqn:Hi; simpl; [|done].
  rewrite bind_run, (uns_get_run _ _ u) by heap_lookup.
  rewrite Hi.
  rewrite (uns_set_run _ _ _ a') by heap_lookup.
  simpl. by rewrite list_insert_insert_eq.
Qed.

Lemma restrict_to_hvg_run (use_highly_variable : bool) (l : loc) (a : AnnData F)
    (w : world F) :
  heap w !! l = Some a →
  restrict_to_hvg use_highly_variable l w = (Ret (restricted use_highly_variable a), w).
Proof.
  intros Hl. unfold restrict_to_hvg, restricted.
  destruct use_highly_variable; [|done]. by rewrite (has_column_run _ _ a).
Qed.

Lemma handle_in_use_restricted (l : loc) (a : AnnData F) (hv : list bool)
    (w : world F) :
  heap w !! l = Some a →
  var a !! "highly_variable" = Some hv →
  handle_in_use true l w =
    (Ret (length (heap w)),
     World (heap w ++ [subset_vars hv a]) (self_adata w)
           (stdout w ++ [announce_hvg hv])
           (shown w) (files w)).
Proof.
  intros Hl Hhv. unfold handle_in_use.
  rewrite bind_run, (restrict_to_hvg_run _ _ a) by done.
  unfold restricted. rewrite Hhv. simpl.
  rewrite bind_run, (var_column_run _ _ a), Hhv by done.
  rewrite !bind_run. simpl.
  rewrite bind_run, (var_column_run _ _ a), Hhv by done.
  unfold getitem_vars. by rewrite bind_run, (deref_run _ a) by done.
Qed.

Lemma handle_in_use_plain (use_highly_variable : bool) (l : loc) (a : AnnData F)
    (w : world F) :
  heap w !! l = Some a →
  restricted use_highly_variable a = false →
  handle_in_use use_highly_variable l w = (Ret l, w).
Proof.
  intros Hl Hr. unfold handle_in_use.
  by rewrite bind_run, (restrict_to_hvg_run _ _ a), Hr by done.
Qed.

Lemma call_pca_run (l : loc) (args : pca_args) (a : AnnData F) (w : world F) :
  heap w !! l = Some a →
  call_pca sc_tl_pca l args w =
    (match (sc_tl_pca a args).1 with
     | Some e => Raise (Lib "sc.tl.pca" e)
     | None => Ret tt
     end,
     set_heap (<[l := (sc_tl_pca a args).2]> (heap w)) w).
Proof.
  intros Hl. unfold call_pca. rewrite bind_run, (deref_run _ a) by done.
  destruct (sc_tl_pca a args) as [[e|] a']; by rewrite bind_run, store_run.
Qed.

Lemma give_back_run (return_info inplace : bool) (adata : loc) (a : AnnData F)
    (w : world F) :
  heap w !! adata = Some a →
  give_back return_info inplace adata w =
    (Ret (returned return_info inplace adata a),
     if inplace
     then World (heap w) adata (stdout w) (shown w) (files w)
     else w).
Proof.
  intros Hl. unfold give_back, returned, wants_info.
  destruct inplace, return_info; rewrite ?bind_run; simpl;
    rewrite ?bind_run, ?(uns_has_run _ _ a) by done;
    try done.
  - destruct (uns a !! "pca") as [info|] eqn:Hi; simpl; [|done].
    by rewrite bind_run, (uns_get_run _ _ a), Hi by done.
  - destruct (uns a !! "pca") as [info|] eqn:Hi; simpl; [|done].
    by rewrite bind_run, (uns_get_run _ _ a), Hi by done.
Qed.

Lemma working_heap_target (inplace : bool) (a : AnnData F) (w : world F) :
  heap w !! self_adata w = Some a →
  working_heap inplace a w !! target inplace w = Some a.
Proof. intros Hs. unfold working_heap, target. destruct inplace; heap_lookup. Qed.

(** The whole call when the genes are restricted. *)
Lemma run_pca_restricted (n_comps : Z) (svd_solver : string) (random_state : Z)
    (return_info inplace : bool) (a : AnnData F) (hv : list bool) (w : world F) :
  heap w !! self_adata w = Some a →
  var a !! "highly_variable" = Some hv →
  let args := PcaArgs n_comps svd_solver random_state return_info in
  let t := target inplace w in
  let h := working_heap inplace a w in
  let r := sc_tl_pca (subset_vars hv a) args in
  let out := stdout w ++ [announce n_comps] ++ [announce_hvg hv] in
  run_pca fzero sc_tl_pca n_comps true svd_solver random_state return_info inplace w =
    match r.1 with
    | Some e =>
        (Raise (Lib "sc.tl.pca" e),
         World (h ++ [r.2]) (self_adata w) out (shown w) (files w))
    | None =>
        let m := merge_results fzero n_comps a r.2 in
        (match m.1 with
         | Ret _ => Ret (returned return_info inplace t m.2)
         | Raise e => Raise e
         end,
         World (<[t := m.2]> (h ++ [r.2])) (self_adata w) out (shown w) (files w))
    end.
Proof.
  intros Hs Hhv args t h r out. unfold run_pca.
  rewrite bind_run. unfold print at 1.
  rewrite bind_run, (working_handle_run _ a) by done.
  assert (Ht : h !! t = Some a) by (by apply working_heap_target).
  set (w1 := if inplace then _ else _).
  assert (Hw1 : w1 = World h (self_adata w) (stdout w ++ [announce n_comps])
                       (shown w) (files w)).
  { subst w1 h. unfold working_heap. by destruct inplace. }
  rewrite Hw1. clear w1 Hw1. change (target inplace _) with t.
  rewrite bind_run, (handle_in_use_restricted _ a hv) by done. simpl.
  rewrite bind_run, (call_pca_run _ _ (subset_vars hv a)) by heap_lookup.
  fold args. fold r. simpl. rewrite insert_snoc_new.
  assert (Hlt : t ≠ length h) by (apply lookup_lt_Some in Ht; lia).
  destruct r.1 as [e|].
  { subst out. by rewrite <- app_assoc. }
  rewrite bind_run, (restrict_to_hvg_run _ _ a) by heap_lookup.
  unfold restricted. rewrite Hhv. simpl.
  rewrite bind_run, (copy_results_run _ _ _ a r.2) by heap_lookup.
  simpl. subst out. rewrite <- app_assoc. simpl.
  destruct (merge_results fzero n_comps a r.2).1 as [[]|e]; [|done].
  rewrite (give_back_run _ _ _ (merge_results fzero n_comps a r.2).2)
    by heap_lookup.
  simpl. f_equal. subst t. unfold target. by destruct inplace.
Qed.

(** The whole call when the genes are not restricted and the routine has
    not put a flag column in place. *)
Lemma run_pca_plain (n_comps : Z) (use_highly_variable : bool)
    (svd_solver : string) (random_state : Z) (return_info inplace : bool)
    (a : AnnData F) (w : world F) :
  heap w !! self_adata w = Some a →
  restricted use_highly_variable a = false →
  let args := PcaArgs n_comps svd_solver random_state return_info in
  let t := target inplace w in
  let h := working_heap inplace a w in
  let r := sc_tl_pca a args in
  let out := stdout w ++ [announce n_comps] in
  (r.1 = None → restricted use_highly_variable r.2 = false) →
  run_pca fzero sc_tl_pca n_comps use_highly_variable svd_solver random_state
          return_info inplace w =
    (match r.1 with
     | Some e => Raise (Lib "sc.tl.pca" e)
     | None => Ret (returned return_info inplace t r.2)
     end,
     World (<[t := r.2]> h) (self_adata w) out (shown w) (files w)).
Proof.
  intros Hs Hr args t h r out Hkeep. unfold run_pca.
  rewrite bind_run. unfold print at 1.
  rewrite bind_run, (working_handle_run _ a) by done.
  assert (Ht : h !! t = Some a) by (by apply working_heap_target).
  set (w1 := if inplace then _ else _).
  assert (Hw1 : w1 = World h (self_adata w) out (shown w) (files w)).
  { subst w1 h. unfold working_heap. by destruct inplace. }
  rewrite Hw1. clear w1 Hw1. change (target inplace _) with t.
  rewrite bind_run, (handle_in_use_plain _ _ a) by done.
  rewrite bind_run, (call_pca_run _ _ a) by done.
  fold args. fold r. simpl.
  destruct r.1 as [e|]; [done|].
  rewrite bind_run, (restrict_to_hvg_run _ _ r.2) by heap_lookup.
  rewrite Hkeep by done. rewrite bind_run. simpl.
  rewrite (give_back_run _ _ _ r.2) by heap_lookup.
  simpl. f_equal. subst t. unfold target. by destruct inplace.
Qed.
End running.

(** ** No exception is raised by the wrapper itself *)

Section lib_only.
Context {F : Type}.
Variable fzero : F.
Variable sc_tl_pca : AnnData F → pca_args → option pyexn * AnnData F.

Lemma lib_only_ret {A} (a : A) : lib_only (mret a : M F A).
Proof. intros w e w' H. inversion H. Qed.

Lemma lib_only_bind {A B} (m : M F A) (k : A → M F B) :
  lib_only m → (∀ a, lib_only (k a)) → lib_only (m ≫= k).
Proof.
  intros Hm Hk w e w' H. rewrite bind_run in H.
  destruct (m w) as [[x|e0] w0] eqn:Hmw.
  - by eapply Hk.
  - inversion H; subst. by eapply Hm.
Qed.

Lemma lib_only_lift {A} (callee : string) (r : pyexn + A) :
  lib_only (lift_lib callee r : M F A).
Proof.
  intros w e w' H. destruct r as [ex|x]; inversion H. by eexists _, _.
Qed.

Lemma lib_only_deref (l : loc) : lib_only (deref (F:=F) l).
Proof.
  intros w e w' H. unfold deref in H.
  destruct (heap w !! l); inversion H. by eexists _, _.
Qed.

Lemma lib_only_total {A} (m : M F A) :
  (∀ w, is_ret (m w).1 = true) → lib_only m.
Proof. intros Hm w e w' H. specialize (Hm w). by rewrite H in Hm. Qed.

Lemma lib_only_if {A} (b : bool) (m1 m2 : M F A) :
  lib_only m1 → lib_only m2 → lib_only (if b then m1 else m2).
Proof. by destruct b. Qed.

Ltac solve_lib_only :=
  repeat first
    [ apply lib_only_ret
    | apply lib_only_lift
    | apply lib_only_deref
    | apply lib_only_if
    | apply lib_only_bind; [|intros ?]
    | apply lib_only_total; done ].

Lemma lib_only_call_pca (l : loc) (args : pca_args) :
  lib_only (call_pca sc_tl_pca l args).
Proof.
  unfold call_pca. apply lib_only_bind; [apply lib_only_deref|intros a].
  destruct (sc_tl_pca a args) as [[e|] a'].
  - intros w ex w' H. inversion H. by eexists _, _.
  - solve_lib_only.
Qed.

Lemma lib_only_run_pca (n_comps : Z) (use_highly_variable : bool)
    (svd_solver : string) (random_state : Z) (return_info inplace : bool) :
  lib_only (run_pca fzero sc_tl_pca n_comps use_highly_variable svd_solver
              random_state return_info inplace).
Proof.
  unfold run_pca, working_handle, handle_in_use, copy_results, copy_loadings,
    give_back, restrict_to_hvg, wants_info, copy, has_column, var_column,
    getitem_vars, obsm_get, obsm_set, varm_has, varm_get, varm_set, uns_has,
    uns_get, uns_set, alloc.
  apply lib_only_bind; [by apply lib_only_total|intros _].
  apply lib_only_bind; [solve_lib_only|intros adata].
  apply lib_only_bind; [solve_lib_only|intros adata_use].
  apply lib_only_bind; [apply lib_only_call_pca|intros _].
  solve_lib_only.
Qed.
End lib_only.

(** ** The dataset the routine runs on *)

Lemma restricted_true {F} (use_highly_variable : bool) (a : AnnData F) :
  restricted use_highly_variable a = true →
  ∃ hv, use_highly_variable = true ∧ var a !! "highly_variable" = Some hv
        ∧ dataset_used use_highly_variable a = subset_vars hv a.
Proof.
  unfold restricted, dataset_used. intros Hr.
  destruct use_highly_variable; [|done].
  destruct (var a !! "highly_variable") as [hv|]; [|done]. by exists hv.
Qed.

Lemma restricted_false {F} (use_highly_variable : bool) (a : AnnData F) :
  restricted use_highly_variable a = false →
  dataset_used use_highly_variable a = a.
Proof.
  unfold restricted, dataset_used. intros Hr.
  destruct use_highly_variable, (var a !! "highly_variable"); done.
Qed.

Lemma restricted_same_var {F} (use_highly_variable : bool) (a b : AnnData F) :
  var a = var b → restricted use_highly_variable a = restricted use_highly_variable b.
Proof. unfold restricted. by intros ->. Qed.

(** * The claims about run_pca *)

(** C7. [run_pca] has no [raise] of its own: every exception that leaves it
    was raised inside a library call.  And when the external decomposition
    routine raises on the dataset it is run on, that very exception is what
    the caller of [run_pca] gets: nothing catches, retries or replaces it. *)
Theorem run_pca_propagates_failure {F} (fzero : F)
    (sc_tl_pca : AnnData F → pca_args → option pyexn * AnnData F)
    (n_comps : Z) (use_highly_variable : bool) (svd_solver : string)
    (random_state : Z) (return_info inplace : bool)
    (a : AnnData F) (w : world F) :
  heap w !! self_adata w = Some a →
  let call := run_pca fzero sc_tl_pca n_comps use_highly_variable svd_solver
                random_state return_info inplace in
  let args := PcaArgs n_comps svd_solver random_state return_info in
  lib_only call ∧
  ∀ e, (sc_tl_pca (dataset_used use_highly_variable a) args).1 = Some e →
       (call w).1 = Raise (Lib "sc.tl.pca" e).
Proof.
  intros Hs call args. split; [apply lib_only_run_pca|].
  intros e He. subst call.
  destruct (restricted use_highly_variable a) eqn:Hr.
  - apply restricted_true in Hr as (hv & -> & Hhv & Hd).
    rewrite Hd in He.
    rewrite (run_pca_restricted _ _ _ _ _ _ _ a hv) by done.
    fold args. by rewrite He.
  - rewrite (restricted_false _ _ Hr) in He.
    rewrite (run_pca_plain _ _ _ _ _ _ _ _ a); try done.
    + fold args. by rewrite He.
    + fold args. by rewrite He.
Qed.

Lemma run_pca_propagates_failure_witness :
  lib_only (run_pca 0 spread_pca 2 true "arpack" 42 false true) ∧
  (demo_run demo_adata 2 true true).1 =
    Raise (Lib "sc.tl.pca"
             (ValueError "n_components must be strictly less than min(n_samples, n_features)")).
Proof.
  destruct (run_pca_propagates_failure 0 spread_pca 2 true "arpack" 42 false true
              demo_adata (world_of demo_adata) eq_refl) as [Hlib Hprop].
  split; [exact Hlib|]. apply Hprop. reflexivity.
Defined.

(** C3. When the per-gene table has no 'highly_variable' column, asking for
    the restriction changes nothing: the call with [use_highly_variable=True]
    has the same outcome and leaves the same state as the call with
    [use_highly_variable=False], and the missing column raises no error (an
    exception can only be the one the routine raised on the whole dataset). *)
Theorem run_pca_without_flag_column {F} (fzero : F)
    (sc_tl_pca : AnnData F → pca_args → option pyexn * AnnData F)
    (n_comps : Z) (svd_solver : string) (random_state : Z)
    (return_info inplace : bool) (a : AnnData F) (w : world F) :
  keeps_var sc_tl_pca →
  heap w !! self_adata w = Some a →
  var a !! "highly_variable" = None →
  let args := PcaArgs n_comps svd_solver random_state return_info in
  let call use_highly_variable :=
    run_pca fzero sc_tl_pca n_comps use_highly_variable svd_solver random_state
            return_info inplace in
  call true w = call false w ∧
  ∀ e, (call true w).1 = Raise e →
       ∃ ex, (sc_tl_pca a args).1 = Some ex ∧ e = Lib "sc.tl.pca" ex.
Proof.
  intros Hkeep Hs Hnone args call. subst call. simpl.
  assert (Hr : ∀ b, restricted b a = false).
  { intros b. unfold restricted. rewrite Hnone. by destruct b. }
  assert (Hr' : ∀ b, restricted b (sc_tl_pca a args).2 = false).
  { intros b. rewrite <- (Hr b). apply restricted_same_var.
    destruct (sc_tl_pca a args) as [r a'] eqn:Hp. by eapply Hkeep. }
  rewrite !(run_pca_plain _ _ _ _ _ _ _ _ a) by (done || intros; apply Hr').
  split; [done|]. intros e. fold args. simpl.
  destruct (sc_tl_pca a args).1 as [ex|]; [|done].
  intros [= <-]. by exists ex.
Qed.

Lemma spread_pca_keeps_var : keeps_var spread_pca.
Proof.
  intros a args r a'. unfold spread_pca.
  destruct (_ || _); by intros [= <- <-].
Qed.

Lemma run_pca_without_flag_column_witness :
  demo_run plain_adata 2 true true = demo_run plain_adata 2 false true
  ∧ is_ret (demo_run plain_adata 2 true true).1 = true.
Proof.
  destruct (run_pca_without_flag_column 0 spread_pca 2 "arpack" 42 false true
              plain_adata (world_of plain_adata) spread_pca_keeps_var
              eq_refl eq_refl) as [Hsame _].
  split; [exact Hsame|reflexivity].
Defined.

(** ** What the copy-back leaves on the dataset *)

Section merging.
Context {F : Type}.
Variable fzero : F.

Lemma merge_loadings_frame (n_comps : Z) (a u : AnnData F) :
  let a' := (merge_loadings fzero n_comps a u).2 in
  X a' = X a ∧ var a' = var a ∧ obsm a' = obsm a ∧ uns a' = uns a.
Proof.
  unfold merge_loadings.
  destruct (varm u !! "PCs"); [|done].
  destruct (np_zeros _ _ _); [done|].
  destruct (var a !! "highly_variable"); [|done].
  by destruct (setitem_mask _ _ _).
Qed.

Lemma merge_loadings_stored (n_comps : Z) (a u : AnnData F) :
  is_ret (merge_loadings fzero n_comps a u).1 = true →
  is_Some (varm u !! "PCs") →
  is_Some (varm (merge_loadings fzero n_comps a u).2 !! "PCs").
Proof.
  unfold merge_loadings. intros Hret [v Hv]. rewrite Hv in *.
  destruct (np_zeros _ _ _); [done|].
  destruct (var a !! "highly_variable"); [|done].
  destruct (setitem_mask _ _ _); [done|].
  simpl. by rewrite lookup_insert_eq.
Qed.

Lemma merge_results_frame (n_comps : Z) (a u : AnnData F) :
  let a' := (merge_results fzero n_comps a u).2 in
  X a' = X a ∧ var a' = var a.
Proof.
  unfold merge_results. destruct (obsm u !! "X_pca") as [e|]; [|done].
  pose proof (merge_loadings_frame n_comps (with_obsm "X_pca" e a) u)
    as (HX & Hvar & _).
  destruct (merge_loadings _ _ _ _) as [[[]|ex] a']; simpl in *; [|done].
  by destruct (uns u !! "pca").
Qed.

(** After a copy-back that went through, the dataset holds the embedding
    and the info of the dataset the routine ran on, and loadings if that
    one has any. *)
Lemma merge_results_stored (n_comps : Z) (a u : AnnData F) :
  is_ret (merge_results fzero n_comps a u).1 = true →
  let a' := (merge_results fzero n_comps a u).2 in
  is_Some (obsm u !! "X_pca")
  ∧ obsm a' !! "X_pca" = obsm u !! "X_pca"
  ∧ (is_Some (varm u !! "PCs") → is_Some (varm a' !! "PCs"))
  ∧ (is_Some (uns u !! "pca") → uns a' !! "pca" = uns u !! "pca").
Proof.
  unfold merge_results. destruct (obsm u !! "X_pca") as [e|] eqn:He; [|done].
  pose proof (merge_loadings_frame n_comps (with_obsm "X_pca" e a) u)
    as (_ & _ & Hobsm & Huns).
  pose proof (merge_loadings_stored n_comps (with_obsm "X_pca" e a) u) as Hpcs.
  destruct (merge_loadings _ _ _ _) as [[[]|ex] a']; simpl in *; [|done].
  intros _. split_and!; [done| | |].
  - destruct (uns u !! "pca"); simpl; by rewrite Hobsm, lookup_insert_eq.
  - intros Hv. specialize (Hpcs eq_refl Hv). by destruct (uns u !! "pca").
  - intros [info Hi]. rewrite Hi. simpl. by rewrite lookup_insert_eq.
Qed.
End merging.

(** C2 (as amended). Whenever the call returns, the embedding in
    [obsm['X_pca']] of the dataset it worked on has one row per cell of the
    held dataset and [n_comps] columns, with or without the gene
    restriction: the restriction keeps every cell, and the routine's
    embedding is stored as it is.  That the call returns is a condition of
    its own: a count within [min(cells, genes)] of the full dataset can
    still be refused by the routine, which under the restriction sees the
    flagged genes only. *)
Theorem run_pca_embedding_shape {F} (fzero : F)
    (sc_tl_pca : AnnData F → pca_args → option pyexn * AnnData F)
    (n_comps : Z) (use_highly_variable : bool) (svd_solver : string)
    (random_state : Z) (return_info inplace : bool)
    (a : AnnData F) (w w' : world F) (r : retval F) :
  returns_embedding sc_tl_pca →
  keeps_var sc_tl_pca →
  heap w !! self_adata w = Some a →
  run_pca fzero sc_tl_pca n_comps use_highly_variable svd_solver random_state
          return_info inplace w = (Ret r, w') →
  ∃ a' e, heap w' !! target inplace w = Some a'
          ∧ obsm a' !! "X_pca" = Some e
          ∧ nrow e = n_obs a
          ∧ Z.of_nat (ncol e) = n_comps.
Proof.
  intros Hemb Hkeep Hs Hrun.
  pose proof (working_heap_target inplace a w Hs) as Ht.
  set (args := PcaArgs n_comps svd_solver random_state return_info).
  destruct (restricted use_highly_variable a) eqn:Hr.
  - apply restricted_true in Hr as (hv & -> & Hhv & _).
    rewrite (run_pca_restricted _ _ _ _ _ _ _ a hv) in Hrun by done.
    fold args in Hrun. simpl in Hrun.
    destruct (sc_tl_pca (subset_vars hv a) args) as [[ex|] u] eqn:Hp;
      simpl in Hrun; [done|].
    pose proof (merge_results_stored fzero n_comps a u) as Hm.
    destruct (merge_results fzero n_comps a u) as [[[]|ex] a']; simpl in *;
      [|done].
    destruct (Hm eq_refl) as (_ & Hobsm & _).
    destruct (Hemb _ _ _ Hp) as (e & He & Hrows & Hcols).
    injection Hrun as _ <-. exists a', e. split_and!; try done.
    + simpl. apply lookup_insert_here with (a := a). heap_lookup.
    + by rewrite Hobsm.
  - rewrite (run_pca_plain _ _ _ _ _ _ _ _ a) in Hrun; [|done..|].
    + fold args in Hrun.
      destruct (sc_tl_pca a args) as [[ex|] u] eqn:Hp; simpl in Hrun; [done|].
      destruct (Hemb _ _ _ Hp) as (e & He & Hrows & Hcols).
      injection Hrun as _ <-. exists u, e. split_and!; try done.
      simpl. by apply lookup_insert_here with (a := a).
    + intros _. rewrite <- Hr. apply restricted_same_var.
      destruct (sc_tl_pca a _) as [r0 a0] eqn:Hp. by eapply Hkeep.
Qed.

Lemma spread_pca_returns_embedding : returns_embedding spread_pca.
Proof.
  intros a args a'. unfold spread_pca.
  destruct (_ || _) eqn:Hk; [done|]. intros [= <-].
  apply orb_false_iff in Hk as [Hk _]. apply Z.leb_gt in Hk.
  eexists. split; [apply lookup_insert_eq|]. simpl. split; [done|lia].
Qed.

Lemma run_pca_embedding_shape_witness :
  ∃ a' e, heap (demo_run demo_adata 1 true false).2
            !! target false (world_of demo_adata) = Some a'
          ∧ obsm a' !! "X_pca" = Some e
          ∧ nrow e = n_obs demo_adata
          ∧ Z.of_nat (ncol e) = 1.
Proof.
  apply (run_pca_embedding_shape 0 spread_pca 1 true "arpack" 42 false false
           demo_adata (world_of demo_adata)
           (demo_run demo_adata 1 true false).2 (RHandle 1%nat)
           spread_pca_returns_embedding spread_pca_keeps_var eq_refl).
  vm_compute. reflexivity.
Defined.

(** C2 as stated fails.  Three cells and three genes, two of them flagged,
    and [n_comps = 3], which is within [min(cells, genes) = 3].  The
    restriction hands the routine a matrix of three cells and two genes, for
    which three components are too many; its exception ends the call at
    line 160, and no object of the store has an embedding. *)
Lemma run_pca_embedding_counterexample :
  3 ≤ Z.of_nat (n_obs demo_adata `min` n_vars demo_adata)
  ∧ n_vars (dataset_used true demo_adata) = 2%nat
  ∧ (demo_run demo_adata 3 true true).1
    = Raise (Lib "sc.tl.pca"
               (ValueError "n_components must be strictly less than min(n_samples, n_features)"))
  ∧ Forall (λ a, obsm a !! "X_pca" = None) (heap (demo_run demo_adata 3 true true).2)
  ∧ (demo_run demo_adata 3 true false).1 = (demo_run demo_adata 3 true true).1
  ∧ Forall (λ a, obsm a !! "X_pca" = None) (heap (demo_run demo_adata 3 true false).2).
Proof.
  split_and!; try (vm_compute; reflexivity).
  - vm_compute. discriminate.
  - vm_compute. by repeat constructor.
  - vm_compute. by repeat constructor.
Qed.




(** ** Running the copy-back again *)

Section again.
Context {F : Type}.
Variable fzero : F.

Lemma AnnData_eq (a b : AnnData F) :
  X a = X b → var a = var b → obsm a = obsm b → varm a = varm b →
  uns a = uns b → a = b.
Proof. destruct a, b; simpl; by intros -> -> -> -> ->. Qed.

(** The copy-back reads only the three result slots of the dataset the
    routine ran on. *)
Lemma merge_results_ext (n_comps : Z) (a u u' : AnnData F) :
  obsm u !! "X_pca" = obsm u' !! "X_pca" →
  varm u !! "PCs" = varm u' !! "PCs" →
  uns u !! "pca" = uns u' !! "pca" →
  merge_results fzero n_comps a u = merge_results fzero n_comps a u'.
Proof.
  intros Ho Hv Hu. unfold merge_results, merge_loadings.
  by rewrite Ho, Hv, Hu.
Qed.

(** Copying the same results a second time changes nothing. *)
Lemma merge_results_again (n_comps : Z) (a u : AnnData F) :
  is_ret (merge_results fzero n_comps a u).1 = true →
  merge_results fzero n_comps (merge_results fzero n_comps a u).2 u
  = (Ret tt, (merge_results fzero n_comps a u).2).
Proof.
  unfold merge_results, merge_loadings.
  destruct (obsm u !! "X_pca") as [e|]; [|done].
  destruct (varm u !! "PCs") as [v|]; simpl.
  - unfold n_vars. simpl.
    destruct (np_zeros fzero (ncol (X a)) n_comps) as [ex|z] eqn:Hz; [done|].
    destruct (var a !! "highly_variable") as [hv|] eqn:Hhv; [|done].
    destruct (setitem_mask z hv v) as [ex|p] eqn:Hp; [done|]. simpl.
    destruct (uns u !! "pca") as [info|]; simpl; intros _;
      rewrite Hz, Hhv, Hp; simpl; f_equal;
      unfold with_obsm, with_varm, with_uns; simpl;
      by rewrite !insert_insert_eq.
  - destruct (uns u !! "pca") as [info|]; simpl; intros _; f_equal;
      unfold with_obsm, with_uns; simpl; by rewrite !insert_insert_eq.
Qed.
End again.

(** C8. In place, with the same parameters, a second call right after the
    first leaves the held handle on the same dataset as the first call
    alone did, and gives the same outcome: it only overwrites the three
    result slots with the values they already have.  What is asked of the
    routine is what the claim says of it: its results are a function of the
    data and the parameters (the seed among them), and it writes nothing
    but its result slots. *)
Theorem run_pca_idempotent {F} (fzero : F)
    (sc_tl_pca : AnnData F → pca_args → option pyexn * AnnData F)
    (n_comps : Z) (use_highly_variable : bool) (svd_solver : string)
    (random_state : Z) (return_info : bool) (a : AnnData F) (w : world F) :
  keeps_var sc_tl_pca →
  writes_only_results sc_tl_pca →
  results_determined_by_data sc_tl_pca →
  heap w !! self_adata w = Some a →
  let call := run_pca fzero sc_tl_pca n_comps use_highly_variable svd_solver
                random_state return_info true in
  let once := call w in
  let twice := (call ≫= λ _, call) w in
  twice.1 = once.1
  ∧ self_adata twice.2 = self_adata once.2
  ∧ heap twice.2 !! self_adata twice.2 = heap once.2 !! self_adata once.2.
Proof.
  intros Hkeep Hframe Hdet Hs call once twice. subst twice once.
  rewrite bind_run. subst call.
  set (args := PcaArgs n_comps svd_solver random_state return_info).
  assert (Hvar : ∀ b, var (sc_tl_pca b args).2 = var b).
  { intros b. destruct (sc_tl_pca b args) as [r b'] eqn:Hp. by eapply Hkeep. }
  destruct (restricted use_highly_variable a) eqn:Hr.
  - apply restricted_true in Hr as (hv & -> & Hhv & _).
    rewrite (run_pca_restricted _ _ _ _ _ _ _ a hv) by done.
    fold args. simpl.
    set (p := sc_tl_pca (subset_vars hv a) args).
    destruct p.1 as [ex|] eqn:Hp1; [done|].
    set (m := merge_results fzero n_comps a p.2).
    destruct m.1 as [[]|ex] eqn:Hm1; [|done].
    destruct (merge_results_frame fzero n_comps a p.2) as [HX Hv].
    fold m in HX, Hv.
    rewrite (run_pca_restricted _ _ _ _ _ _ _ m.2 hv); simpl.
    2:{ eapply lookup_insert_here. heap_lookup. }
    2:{ by rewrite Hv. }
    fold args.
    set (p' := sc_tl_pca (subset_vars hv m.2) args).
    destruct (Hdet (subset_vars hv m.2) (subset_vars hv a) args)
      as (H1 & Hslots).
    { unfold subset_vars. simpl. by rewrite HX. }
    { unfold subset_vars. simpl. by rewrite Hv. }
    fold p p' in H1, Hslots. rewrite H1, Hp1 in *.
    destruct Hslots as (Ho & Hl & Hu); [done|].
    rewrite (merge_results_ext fzero n_comps m.2 p'.2 p.2) by done.
    subst m. rewrite merge_results_again by (by rewrite Hm1). simpl.
    split; [done|]. split; [done|].
    unfold target. simpl.
    erewrite !lookup_insert_here; [done|heap_lookup|].
    rewrite lookup_app_l.
    + eapply lookup_insert_here. heap_lookup.
    + rewrite length_insert, length_app. apply lookup_lt_Some in Hs. lia.
  - rewrite (run_pca_plain _ _ _ _ _ _ _ _ a); [|done..|].
    2:{ intros _. rewrite <- Hr. apply restricted_same_var, Hvar. }
    fold args. simpl.
    set (p := sc_tl_pca a args).
    destruct p.1 as [ex|] eqn:Hp1; [done|].
    assert (Hr1 : restricted use_highly_variable p.2 = false).
    { rewrite <- Hr. apply restricted_same_var, Hvar. }
    rewrite (run_pca_plain _ _ _ _ _ _ _ _ p.2); simpl.
    2:{ by eapply lookup_insert_here. }
    2:{ done. }
    2:{ intros _. rewrite <- Hr1. apply restricted_same_var, Hvar. }
    fold args.
    set (p' := sc_tl_pca p.2 args).
    destruct (Hframe a args p.1 p.2) as (HX & _); [apply surjective_pairing|].
    destruct (Hdet p.2 a args HX (Hvar a)) as (H1 & Hslots).
    fold p p' in H1, Hslots. rewrite H1, Hp1 in Hslots.
    destruct Hslots as (Ho & Hl & Hu); [done|].
    destruct (Hframe p.2 args p'.1 p'.2) as (HX' & Ho' & Hl' & Hu');
      [apply surjective_pairing|].
    assert (Hsame : p'.2 = p.2).
    { apply AnnData_eq; [done|apply Hvar|..]; apply map_eq; intros k.
      - destruct (decide (k = "X_pca")) as [->|]; [done|by apply Ho'].
      - destruct (decide (k = "PCs")) as [->|]; [done|by apply Hl'].
      - destruct (decide (k = "pca")) as [->|]; [done|by apply Hu']. }
    rewrite H1, Hp1, Hsame. split; [done|]. split; [done|].
    unfold target. simpl. by rewrite list_insert_insert_eq.
Qed.

Lemma spread_pca_writes_only_results : writes_only_results spread_pca.
Proof.
  intros a args r a'. unfold spread_pca.
  destruct (_ || _); intros [= <- <-]; [done|]. simpl.
  split_and!; [done|..]; intros k Hk; by rewrite lookup_insert_ne.
Qed.

Lemma spread_pca_determined_by_data : results_determined_by_data spread_pca.
Proof.
  intros a b args HX Hvar. unfold spread_pca, n_obs, n_vars. rewrite HX.
  destruct (_ || _); simpl; [done|]. by rewrite !lookup_insert_eq.
Qed.

Lemma run_pca_idempotent_witness :
  let call := run_pca 0 spread_pca 1 true "arpack" 42 false true in
  let w := world_of demo_adata in
  is_ret (call w).1 = true
  ∧ ((call ≫= λ _, call) w).1 = (call w).1
  ∧ self_adata ((call ≫= λ _, call) w).2 = self_adata (call w).2
  ∧ heap ((call ≫= λ _, call) w).2 !! self_adata ((call ≫= λ _, call) w).2
    = heap (call w).2 !! self_adata (call w).2.
Proof.
  split; [reflexivity|].
  exact (run_pca_idempotent 0 spread_pca 1 true "arpack" 42 false
           demo_adata (world_of demo_adata) spread_pca_keeps_var
           spread_pca_writes_only_results spread_pca_determined_by_data eq_refl).
Defined.

(** ** Scattering rows through a boolean mask *)

Section scatter.
Context {A : Type}.
Implicit Types (mask : list bool) (dst src : list A).

Lemma count_true_cons (b : bool) mask :
  count_true (b :: mask) = ((if b then 1 else 0) + count_true mask)%nat.
Proof. unfold count_true. by destruct b. Qed.

Lemma count_false_cons (b : bool) mask :
  count_false (b :: mask) = ((if b then 0 else 1) + count_false mask)%nat.
Proof. unfold count_false. by destruct b. Qed.

Lemma rank_true_cons (b : bool) mask (i : nat) :
  rank_true (b :: mask) (S i) = ((if b then 1 else 0) + rank_true mask i)%nat.
Proof. unfold rank_true. simpl. apply count_true_cons. Qed.

Lemma length_mask_scatter mask dst src :
  length (mask_scatter mask dst src) = length dst.
Proof.
  revert dst src. induction mask as [|b mask IH]; intros [|d dst] src; try done.
  simpl. destruct b; [destruct src|]; simpl; by rewrite IH.
Qed.

(** A row outside the mask is left as it was. *)
Lemma mask_scatter_lookup_false mask dst src (i : nat) :
  mask !! i = Some false →
  mask_scatter mask dst src !! i = dst !! i.
Proof.
  revert dst src i.
  induction mask as [|b mask IH]; intros [|d dst] src [|i] Hi; try done.
  - simpl in *. destruct b; [done|]. done.
  - simpl in *. destruct b; [destruct src|]; simpl; by apply IH.
Qed.

(** A row inside the mask receives the source row of its rank. *)
Lemma mask_scatter_lookup_true mask dst src (i : nat) :
  length mask = length dst →
  (count_true mask ≤ length src)%nat →
  mask !! i = Some true →
  mask_scatter mask dst src !! i = src !! rank_true mask i.
Proof.
  revert dst src i.
  induction mask as [|b mask IH]; intros [|d dst] src i Hlen Hsrc Hi; try done.
  rewrite count_true_cons in Hsrc. simpl in Hlen.
  destruct i as [|i]; simpl in Hi.
  - injection Hi as ->. destruct src as [|s src]; simpl in *; [lia|done].
  - rewrite rank_true_cons. destruct b; simpl.
    + destruct src as [|s src]; simpl in *; [lia|].
      apply IH; [lia|lia|done].
    + apply IH; [lia|done|done].
Qed.

Lemma Forall_mask_scatter (P : A → Prop) mask dst src :
  Forall P dst → Forall P src → Forall P (mask_scatter mask dst src).
Proof.
  revert dst src. induction mask as [|b mask IH]; intros dst src Hd Hs; [done|].
  destruct Hd as [|d dst Hd Hdst]; [done|]. simpl.
  destruct b; [destruct Hs as [|s src Hs Hsrc]|]; constructor; auto.
Qed.

(** Among the rows of the result, those with a property all the
    destination rows have: every row outside the mask, and the source rows
    that have it. *)
Lemma count_mask_scatter (P : A → Prop) `{!∀ x, Decision (P x)} mask dst src :
  length mask = length dst →
  length src = count_true mask →
  Forall P dst →
  length (filter P (mask_scatter mask dst src))
  = (count_false mask + length (filter P src))%nat.
Proof.
  revert dst src.
  induction mask as [|b mask IH]; intros [|d dst] src Hlen Hsrc Hd; try done.
  { by destruct src. }
  rewrite count_true_cons in Hsrc. rewrite count_false_cons.
  apply Forall_cons in Hd as [Hd Hdst]. simpl in Hlen.
  destruct b; simpl.
  - destruct src as [|s src]; [done|]. simpl in Hsrc.
    rewrite !filter_cons. destruct (decide (P s)); simpl;
      rewrite IH by (done || lia); lia.
  - rewrite filter_cons_True by done. simpl. by rewrite IH by (done || lia).
Qed.
End scatter.

Section loadings.
Context {F : Type} `{EqDecision F}.
Variable fzero : F.

Lemma np_zeros_shape (r : nat) (c : Z) :
  0 ≤ c →
  ∃ z, np_zeros fzero r c = inr z
       ∧ nrow z = r ∧ ncol z = Z.to_nat c
       ∧ rows z = replicate r (zero_row fzero (Z.to_nat c)).
Proof.
  intros Hc. unfold np_zeros. rewrite (proj2 (Z.ltb_ge c 0)) by done.
  by eexists.
Qed.

(** The assignment [z[mask] = v] when [v] has the shape of the selected
    rows: no broadcasting takes place. *)
Lemma setitem_mask_exact (z v : ndarray F) (mask : list bool) :
  length mask = nrow z →
  nrow v = count_true mask →
  ncol v = ncol z →
  setitem_mask z mask v
  = inr (NdArray (nrow z) (ncol z) (mask_scatter mask (rows z) (rows v))).
Proof.
  intros Hm Hr Hc. unfold setitem_mask, broadcastable, broadcast_to.
  rewrite (bool_decide_eq_true_2 (length mask = nrow z)) by done.
  rewrite (bool_decide_eq_true_2 (nrow v = count_true mask)) by done.
  rewrite (bool_decide_eq_true_2 (ncol v = ncol z)) by done.
  done.
Qed.
End loadings.

(** C1 (as amended). With the gene restriction in force and loadings of
    the right shape returned by the routine, the call returns and
    [varm['PCs']] of the dataset it worked on has one row per gene of the
    full dataset and [n_comps] columns; every row of an unflagged gene is
    all zero, and the rows of the flagged genes are the routine's loading
    rows, in order.  So the all-zero rows are the unflagged genes together
    with the flagged genes whose loading row the routine returned as zero. *)
Theorem run_pca_loadings_zero_padded {F} `{EqDecision F} (fzero : F)
    (sc_tl_pca : AnnData F → pca_args → option pyexn * AnnData F)
    (n_comps : Z) (svd_solver : string) (random_state : Z)
    (return_info inplace : bool)
    (a u : AnnData F) (hv : list bool) (v : ndarray F) (w : world F) :
  heap w !! self_adata w = Some a →
  var a !! "highly_variable" = Some hv →
  length hv = n_vars a →
  sc_tl_pca (subset_vars hv a)
            (PcaArgs n_comps svd_solver random_state return_info) = (None, u) →
  is_Some (obsm u !! "X_pca") →
  varm u !! "PCs" = Some v →
  well_shaped v →
  nrow v = n_vars (subset_vars hv a) →
  Z.of_nat (ncol v) = n_comps →
  ∃ r w' a' p,
    run_pca fzero sc_tl_pca n_comps true svd_solver random_state return_info
            inplace w = (Ret r, w')
    ∧ heap w' !! target inplace w = Some a'
    ∧ varm a' !! "PCs" = Some p
    ∧ nrow p = n_vars a ∧ Z.of_nat (ncol p) = n_comps ∧ well_shaped p
    ∧ (∀ i, hv !! i = Some false → rows p !! i = Some (zero_row fzero (ncol p)))
    ∧ (∀ i, hv !! i = Some true → rows p !! i = rows v !! rank_true hv i)
    ∧ count_zero_rows fzero p = (count_false hv + count_zero_rows fzero v)%nat.
Proof.
  intros Hs Hhv Hlen Hp [e He] Hv [Hvr Hvc] Hrows Hcols.
  pose proof (working_heap_target inplace a w Hs) as Ht.
  rewrite (run_pca_restricted _ _ _ _ _ _ _ a hv) by done. rewrite Hp. simpl.
  destruct (np_zeros_shape fzero (n_vars a) n_comps) as (z & Hz & Hzr & Hzc & Hzrows);
    [lia|].
  assert (Hcv : ncol v = ncol z) by lia.
  set (p := NdArray (nrow z) (ncol z) (mask_scatter hv (rows z) (rows v))).
  assert (Hm : merge_results fzero n_comps a u
               = (Ret tt, let a1 := with_varm "PCs" p (with_obsm "X_pca" e a) in
                          match uns u !! "pca" with
                          | Some info => with_uns "pca" info a1
                          | None => a1
                          end)).
  { unfold merge_results, merge_loadings. rewrite He, Hv. simpl.
    change (n_vars (with_obsm "X_pca" e a)) with (n_vars a). rewrite Hz, Hhv.
    rewrite setitem_mask_exact by (done || lia). done. }
  rewrite Hm. simpl.
  eexists _, _, _, p. split; [done|]. simpl.
  assert (Hzlen : length (rows z) = length hv).
  { rewrite Hzrows, length_replicate. lia. }
  assert (Hsrc : length (rows v) = count_true hv) by (by rewrite Hvr).
  split_and!.
  - eapply lookup_insert_here. heap_lookup.
  - destruct (uns u !! "pca"); simpl; by rewrite lookup_insert_eq.
  - done.
  - simpl. lia.
  - split; simpl.
    + rewrite length_mask_scatter. lia.
    + apply Forall_mask_scatter.
      * rewrite Hzrows. apply Forall_replicate.
        unfold zero_row. rewrite length_replicate. lia.
      * by rewrite <- Hcv.
  - intros i Hi. simpl. rewrite mask_scatter_lookup_false by done.
    rewrite Hzrows, Hzc. apply lookup_replicate_2.
    apply lookup_lt_Some in Hi. lia.
  - intros i Hi. simpl. apply mask_scatter_lookup_true; [done|lia|done].
  - unfold count_zero_rows. simpl. rewrite <- Hcv.
    apply count_mask_scatter; [done|done|].
    rewrite Hzrows, Hcv, Hzc. by apply Forall_replicate.
Qed.

Lemma run_pca_loadings_zero_padded_witness :
  ∃ r w' a' p,
    demo_run demo_adata 1 true true = (Ret r, w')
    ∧ heap w' !! target true (world_of demo_adata) = Some a'
    ∧ varm a' !! "PCs" = Some p
    ∧ nrow p = n_vars demo_adata ∧ Z.of_nat (ncol p) = 1 ∧ well_shaped p
    ∧ (∀ i, [true; true; false] !! i = Some false →
            rows p !! i = Some (zero_row 0 (ncol p)))
    ∧ (∀ i, [true; true; false] !! i = Some true →
            rows p !! i = [[1]; [0]] !! rank_true [true; true; false] i)
    ∧ count_zero_rows 0 p
      = Nat.add (count_false [true; true; false])
                (count_zero_rows 0 (NdArray 2 1 [[1]; [0]])).
Proof.
  apply (run_pca_loadings_zero_padded 0 spread_pca 1 "arpack" 42 false true
           demo_adata
           (spread_pca (subset_vars [true; true; false] demo_adata)
                       (PcaArgs 1 "arpack" 42 false)).2
           [true; true; false] (NdArray 2 1 [[1]; [0]]) (world_of demo_adata)).
  - reflexivity.
  - reflexivity.
  - reflexivity.
  - vm_compute. reflexivity.
  - eexists. vm_compute. reflexivity.
  - vm_compute. reflexivity.
  - split; [reflexivity|]. by repeat constructor.
  - reflexivity.
  - reflexivity.
Defined.

(** C1 as stated fails.  Three cells, three genes, the first two flagged,
    and the second gene with the same expression in every cell.  The
    restricted matrix is [[1,5],[1,5],[2,5]]; centred, its second column is
    zero, so the first principal axis is (1, 0) up to sign and the loadings
    of the two flagged genes are [[1],[0]], which is what the stand-in
    routine returns.  Lines 172-173 scatter them into three zero rows: the
    result [[1],[0],[0]] has two all-zero rows for one unflagged gene, and
    row 1 is all zero although gene 1 is flagged. *)
Lemma run_pca_loadings_counterexample :
  ∃ a' p,
    demo_run demo_adata 1 true true
    = (Ret RNone, (demo_run demo_adata 1 true true).2)
    ∧ heap (demo_run demo_adata 1 true true).2 !! 0%nat = Some a'
    ∧ var demo_adata !! "highly_variable" = Some [true; true; false]
    ∧ varm a' !! "PCs" = Some p
    ∧ rows p = [[1]; [0]; [0]]
    ∧ count_zero_rows 0 p = 2%nat
    ∧ count_false [true; true; false] = 1%nat
    ∧ ¬ zero_rows_exactly_unflagged 0 [true; true; false] p.
Proof.
  eexists _, (NdArray 3 1 [[1]; [0]; [0]]).
  split_and!; try (vm_compute; reflexivity).
  intros Hexact. pose proof (proj1 (Hexact 1%nat) eq_refl) as Hflag.
  vm_compute in Hflag. discriminate Hflag.
Qed.

(** * The claims about plot_pca_variance *)

(** ** Ranges, slices and running sums *)

Lemma length_range_go (fuel : nat) (start step : Z) :
  length (range_go fuel start step) = fuel.
Proof.
  revert start. induction fuel as [|fuel IH]; intros start; [done|].
  simpl. by rewrite IH.
Qed.

(** [range(1, n + 1)] has [n] entries. *)
Lemma length_py_range_unit (n : Z) :
  0 ≤ n → length (py_range 1 (n + 1) 1) = Z.to_nat n.
Proof.
  intros Hn. unfold py_range. rewrite length_range_go, Z.div_1_r.
  f_equal. lia.
Qed.

(** A slice whose stop lies inside the list has exactly that many entries. *)
Lemma length_slice_to {A} (n : Z) (l : list A) :
  0 ≤ n ≤ Z.of_nat (length l) → length (slice_to n l) = Z.to_nat n.
Proof.
  intros Hn. unfold slice_to. rewrite (proj2 (Z.leb_le 0 n)) by lia.
  rewrite length_take. lia.
Qed.

Lemma slice_to_all {A} (l : list A) : slice_to (Z.of_nat (length l)) l = l.
Proof.
  unfold slice_to. rewrite (proj2 (Z.leb_le 0 _)) by lia.
  rewrite Nat2Z.id. apply firstn_all.
Qed.

Arguments variance_axes : simpl never.
Arguments cumulative_axes : simpl never.
Arguments finish_figure : simpl never.
Arguments clamp_n_pcs : simpl never.
Arguments np_cumsum : simpl never.

Section plot_facts.
Context {F : Type}.
Variable fadd fmul : F → F → F.
Variable of_int : Z → F.

Lemma length_cumsum_from (acc : F) (l : list F) :
  length (cumsum_from fadd acc l) = length l.
Proof.
  revert acc. induction l as [|x l IH]; intros acc; [done|].
  simpl. by rewrite IH.
Qed.

Lemma length_np_cumsum (l : list F) : length (np_cumsum fadd l) = length l.
Proof. destruct l as [|x l]; [done|]. simpl. by rewrite length_cumsum_from. Qed.

Lemma length_times_100 (l : list F) : length (times_100 fmul of_int l) = length l.
Proof. unfold times_100. apply length_fmap. Qed.

(** The clamped count is a valid stop for both arrays. *)
Lemma clamp_n_pcs_bounds (n_pcs : Z) (variance_ratio : list F) :
  0 ≤ n_pcs →
  0 ≤ clamp_n_pcs n_pcs variance_ratio ≤ Z.of_nat (length variance_ratio).
Proof. unfold clamp_n_pcs. lia. Qed.

Lemma ax_plot_same_length (xs : list Z) (ys : list F) (fmt : string) (ax : axes F) :
  length xs = length ys →
  ∃ ax', ax_plot xs ys fmt ax = inr ax'
         ∧ ax_lines ax' = ax_lines ax ++ [Line2D xs ys fmt].
Proof.
  intros Hlen. unfold ax_plot. rewrite bool_decide_eq_true_2 by done.
  by eexists.
Qed.

(** With a stop inside the array, the per-component chart is drawn. *)
Lemma variance_axes_drawn (n : Z) (log : bool) (variance_ratio : list F) :
  0 ≤ n ≤ Z.of_nat (length variance_ratio) →
  ∃ ax, variance_axes fmul of_int n log variance_ratio = inr ax
        ∧ ax_lines ax = [Line2D (py_range 1 (n + 1) 1)
                                (times_100 fmul of_int (slice_to n variance_ratio))
                                "o-"].
Proof.
  intros Hn. unfold variance_axes.
  destruct (ax_plot_same_length (py_range 1 (n + 1) 1)
              (times_100 fmul of_int (slice_to n variance_ratio)) "o-" empty_axes)
    as (ax & -> & Hlines).
  { rewrite length_py_range_unit, length_times_100, length_slice_to; lia. }
  eexists. split; [done|]. by destruct log.
Qed.

Lemma cumulative_axes_drawn (n : Z) (variance_cumsum : list F) :
  0 ≤ n ≤ Z.of_nat (length variance_cumsum) →
  ∃ ax, cumulative_axes fmul of_int n variance_cumsum = inr ax
        ∧ ax_lines ax = [Line2D (py_range 1 (n + 1) 1)
                                (times_100 fmul of_int (slice_to n variance_cumsum))
                                "o-"].
Proof.
  intros Hn. unfold cumulative_axes.
  destruct (ax_plot_same_length (py_range 1 (n + 1) 1)
              (times_100 fmul of_int (slice_to n variance_cumsum)) "o-" empty_axes)
    as (ax & -> & Hlines).
  { rewrite length_py_range_unit, length_times_100, length_slice_to; lia. }
  by eexists.
Qed.

Lemma diagnostics_absent_iff (a : AnnData F) :
  diagnostics_absent a = true ↔
  uns a !! "pca" = None
  ∨ ∃ info, uns a !! "pca" = Some info ∧ info !! "variance_ratio" = None.
Proof.
  unfold diagnostics_absent. destruct (uns a !! "pca") as [info|].
  - rewrite negb_true_iff, bool_decide_eq_false, <- eq_None_not_Some.
    split; [eauto|]. by intros [|(info' & [= <-] & ?)].
  - split; [auto|done].
Qed.

(** The call up to the guard of line 240. *)
Lemma plot_pca_variance_guard (n_pcs : Z) (log : bool) (threshold : option F)
    (figsize : F * F) (save_path : option string) (return_fig : bool)
    (a : AnnData F) (w : world F) :
  heap w !! self_adata w = Some a →
  diagnostics_absent a = true →
  plot_pca_variance fadd fmul of_int n_pcs log threshold figsize save_path
                    return_fig w
  = (Raise (Here invalid_state), w).
Proof.
  intros Hs Habs. unfold plot_pca_variance.
  rewrite bind_run. simpl. rewrite bind_run, (deref_run _ a) by done.
  by rewrite Habs.
Qed.

(** The call past the guard, for a non-negative component count: the two
    charts are drawn and the figure is handed to the last step. *)
Lemma plot_pca_variance_drawn (n_pcs : Z) (log : bool) (threshold : option F)
    (figsize : F * F) (save_path : option string) (return_fig : bool)
    (a : AnnData F) (info : info_dict F) (variance_ratio : list F) (w : world F) :
  heap w !! self_adata w = Some a →
  uns a !! "pca" = Some info →
  info !! "variance_ratio" = Some variance_ratio →
  0 ≤ n_pcs →
  let n := clamp_n_pcs n_pcs variance_ratio in
  ∃ ax1 ax2,
    ax_lines ax1 = [Line2D (py_range 1 (n + 1) 1)
                           (times_100 fmul of_int (slice_to n variance_ratio)) "o-"]
    ∧ ax_lines ax2 = [Line2D (py_range 1 (n + 1) 1)
                             (times_100 fmul of_int
                                (slice_to n (np_cumsum fadd variance_ratio))) "o-"]
    ∧ plot_pca_variance fadd fmul of_int n_pcs log threshold figsize save_path
                        return_fig w
      = finish_figure threshold save_path return_fig (Figure figsize ax1 ax2) w.
Proof.
  intros Hs Hinfo Hvr Hn n.
  pose proof (clamp_n_pcs_bounds n_pcs variance_ratio Hn) as Hb. fold n in Hb.
  destruct (variance_axes_drawn n log variance_ratio Hb) as (ax1 & Hax1 & Hl1).
  destruct (cumulative_axes_drawn n (np_cumsum fadd variance_ratio))
    as (ax2 & Hax2 & Hl2); [by rewrite length_np_cumsum|].
  exists ax1, ax2. split; [done|]. split; [done|].
  unfold plot_pca_variance.
  rewrite bind_run. simpl. rewrite bind_run, (deref_run _ a) by done.
  unfold diagnostics_absent. rewrite Hinfo, Hvr. simpl.
  rewrite bind_run, (uns_get_run _ _ a), Hinfo by done.
  rewrite Hvr. simpl. rewrite bind_run.
  unfold mret at 1, M_ret at 1. rewrite bind_run. fold n. rewrite Hax1. simpl.
  rewrite bind_run, Hax2. done.
Qed.
End plot_facts.

Section plot_claims.
Context {F : Type}.
Variable fadd fmul : F → F → F.
Variable of_int : Z → F.

Lemma finish_figure_run (threshold : option F) (save_path : option string)
    (return_fig : bool) (fig : figure F) (w : world F) :
  finish_figure threshold save_path return_fig fig w
  = (Ret (if return_fig then Some (finished threshold fig) else None),
     match save_path with
     | Some path =>
         World (heap w) (self_adata w) (stdout w) (shown w)
               (<[path := finished threshold fig]> (files w))
     | None =>
         World (heap w) (self_adata w) (stdout w)
               (shown w ++ [finished threshold fig]) (files w)
     end).
Proof. unfold finish_figure. by destruct save_path. Qed.

(** Past the guard only library calls can fail. *)
Lemma plot_pca_variance_present (n_pcs : Z) (log : bool) (threshold : option F)
    (figsize : F * F) (save_path : option string) (return_fig : bool)
    (a : AnnData F) (w : world F) :
  heap w !! self_adata w = Some a →
  diagnostics_absent a = false →
  ∀ e, (plot_pca_variance fadd fmul of_int n_pcs log threshold figsize
          save_path return_fig w).1 = Raise e →
       ∃ callee ex, e = Lib callee ex.
Proof.
  intros Hs Habs e. unfold plot_pca_variance.
  rewrite bind_run. simpl. rewrite bind_run, (deref_run _ a) by done.
  rewrite Habs.
  rewrite bind_run, (uns_get_run _ _ a) by done.
  destruct (uns a !! "pca") as [info|]; simpl; [|intros [= <-]; eauto].
  rewrite bind_run.
  destruct (info !! "variance_ratio") as [vr|]; simpl; [|intros [= <-]; eauto].
  rewrite bind_run.
  destruct (variance_axes _ _ _ _ _) as [ex|ax1]; simpl; [intros [= <-]; eauto|].
  rewrite bind_run.
  destruct (cumulative_axes _ _ _ _) as [ex|ax2]; simpl; [intros [= <-]; eauto|].
  by rewrite finish_figure_run.
Qed.
End plot_claims.

(** C5. [plot_pca_variance] raises its invalid-state error, the
    [ValueError] of line 241, exactly when the variance diagnostics are
    missing from the held dataset: ['pca'] is not in [uns], or
    ['variance_ratio'] is not in [uns['pca']].  It is raised before
    anything is drawn, shown or written. *)
Theorem plot_pca_variance_invalid_state {F} (fadd fmul : F → F → F)
    (of_int : Z → F) (n_pcs : Z) (log : bool) (threshold : option F)
    (figsize : F * F) (save_path : option string) (return_fig : bool)
    (a : AnnData F) (w : world F) :
  heap w !! self_adata w = Some a →
  let call := plot_pca_variance fadd fmul of_int n_pcs log threshold figsize
                save_path return_fig in
  let absent :=
    uns a !! "pca" = None
    ∨ ∃ info, uns a !! "pca" = Some info ∧ info !! "variance_ratio" = None in
  ((call w).1 = Raise (Here invalid_state) ↔ absent)
  ∧ (absent → (call w).2 = w).
Proof.
  intros Hs call absent. subst call absent.
  rewrite <- diagnostics_absent_iff.
  destruct (diagnostics_absent a) eqn:Habs.
  - rewrite (plot_pca_variance_guard _ _ _ _ _ _ _ _ _ a) by done. done.
  - split; [|done]. split; [|done]. intros Hraise.
    by destruct (plot_pca_variance_present _ _ _ _ _ _ _ _ _ a w Hs Habs _ Hraise)
      as (callee & ex & ?).
Qed.

Lemma plot_pca_variance_invalid_state_witness :
  ((demo_plot (world_of plain_adata) 50 None false).1 = Raise (Here invalid_state)
   ↔ uns plain_adata !! "pca" = None
     ∨ ∃ info, uns plain_adata !! "pca" = Some info
               ∧ info !! "variance_ratio" = None)
  ∧ (demo_plot (world_of plain_adata) 50 None false).1 = Raise (Here invalid_state).
Proof.
  pose proof (plot_pca_variance_invalid_state Z.add Z.mul id 50 false None
                (10, 4) None false plain_adata (world_of plain_adata) eq_refl)
    as [Hiff _].
  split; [exact Hiff|reflexivity].
Defined.

(** C6 (as amended). On a dataset that carries the variance diagnostics,
    and for a component count that is not negative, the call returns; the
    figure is
    written to the save path when one is given and displayed otherwise, and
    it is the return value when [return_fig] is set ([None] is returned
    otherwise).  The dataset is not touched. *)
Theorem plot_pca_variance_shows_or_saves {F} (fadd fmul : F → F → F)
    (of_int : Z → F) (n_pcs : Z) (log : bool) (threshold : option F)
    (figsize : F * F) (save_path : option string) (return_fig : bool)
    (a : AnnData F) (info : info_dict F) (variance_ratio : list F) (w : world F) :
  heap w !! self_adata w = Some a →
  uns a !! "pca" = Some info →
  info !! "variance_ratio" = Some variance_ratio →
  0 ≤ n_pcs →
  let after := plot_pca_variance fadd fmul of_int n_pcs log threshold figsize
                 save_path return_fig w in
  ∃ fig,
    after.1 = Ret (if return_fig then Some fig else None)
    ∧ heap after.2 = heap w
    ∧ match save_path with
      | Some path =>
          files after.2 = <[path := fig]> (files w) ∧ shown after.2 = shown w
      | None =>
          shown after.2 = shown w ++ [fig] ∧ files after.2 = files w
      end.
Proof.
  intros Hs Hinfo Hvr Hn after. subst after.
  destruct (plot_pca_variance_drawn fadd fmul of_int n_pcs log threshold figsize
              save_path return_fig a info variance_ratio w Hs Hinfo Hvr Hn)
    as (ax1 & ax2 & _ & _ & ->).
  rewrite finish_figure_run. eexists. split; [done|].
  by destruct save_path.
Qed.

Lemma plot_pca_variance_shows_or_saves_witness :
  let w := (demo_run plain_adata 2 false true).2 in
  ∃ fig,
    (demo_plot w 50 (Some "pca_variance.png") true).1 = Ret (Some fig)
    ∧ heap (demo_plot w 50 (Some "pca_variance.png") true).2 = heap w
    ∧ files (demo_plot w 50 (Some "pca_variance.png") true).2
      = <["pca_variance.png" := fig]> (files w)
    ∧ shown (demo_plot w 50 (Some "pca_variance.png") true).2 = shown w.
Proof.
  refine (plot_pca_variance_shows_or_saves Z.add Z.mul id 50 false None (10, 4)
            (Some "pca_variance.png") true
            (spread_pca plain_adata (PcaArgs 2 "arpack" 42 false)).2
            {["variance_ratio" := [2; 1]]} [2; 1]
            (demo_run plain_adata 2 false true).2 _ _ _ _).
  - vm_compute. reflexivity.
  - vm_compute. reflexivity.
  - reflexivity.
  - lia.
Defined.

(** C6 as stated fails.  The dataset carries two variance ratios and the
    call asks for [n_pcs = -1]: line 248 leaves the count at -1,
    [range(1, 0)] is empty, [variance_ratio[:-1]] has one entry, and line 254
    is refused by matplotlib.  With or without a save path nothing is
    written, shown or returned. *)
Lemma plot_pca_variance_shows_or_saves_counterexample :
  let w := (demo_run plain_adata 2 false true).2 in
  (heap w !! self_adata w ≫= λ a, uns a !! "pca" ≫= λ info, info !! "variance_ratio")
  = Some [2; 1]
  ∧ is_ret (demo_plot w (-1) (Some "pca_variance.png") true).1 = false
  ∧ files (demo_plot w (-1) (Some "pca_variance.png") true).2 = ∅
  ∧ shown (demo_plot w (-1) (Some "pca_variance.png") true).2 = []
  ∧ is_ret (demo_plot w (-1) None true).1 = false
  ∧ files (demo_plot w (-1) None true).2 = ∅
  ∧ shown (demo_plot w (-1) None true).2 = [].
Proof. split_and!; vm_compute; reflexivity. Qed.

(** C10. When more components are asked for than the variance sequence
    has, the count is clamped to the length [m] of the sequence: the stop of
    both slices is [m], inside the arrays, the slices are the whole arrays,
    nothing is raised, and each chart gets [m] points. *)
Theorem plot_pca_variance_clamps {F} (fadd fmul : F → F → F)
    (of_int : Z → F) (n_pcs : Z) (log : bool) (threshold : option F)
    (figsize : F * F) (save_path : option string) (return_fig : bool)
    (a : AnnData F) (info : info_dict F) (variance_ratio : list F) (w : world F) :
  heap w !! self_adata w = Some a →
  uns a !! "pca" = Some info →
  info !! "variance_ratio" = Some variance_ratio →
  Z.of_nat (length variance_ratio) < n_pcs →
  let m := Z.of_nat (length variance_ratio) in
  let n := clamp_n_pcs n_pcs variance_ratio in
  let variance_cumsum := np_cumsum fadd variance_ratio in
  n = m
  ∧ 0 ≤ n ≤ Z.of_nat (length variance_ratio)
  ∧ n ≤ Z.of_nat (length variance_cumsum)
  ∧ slice_to n variance_ratio = variance_ratio
  ∧ slice_to n variance_cumsum = variance_cumsum
  ∧ ∃ fig,
      (plot_pca_variance fadd fmul of_int n_pcs log threshold figsize save_path
                         return_fig w).1
      = Ret (if return_fig then Some fig else None)
      ∧ ax_lines (fig_ax1 fig)
        = [Line2D (py_range 1 (m + 1) 1)
                  (times_100 fmul of_int variance_ratio) "o-"]
      ∧ ax_lines (fig_ax2 fig)
        = [Line2D (py_range 1 (m + 1) 1)
                  (times_100 fmul of_int variance_cumsum) "o-"]
      ∧ length (py_range 1 (m + 1) 1) = length variance_ratio.
Proof.
  intros Hs Hinfo Hvr Hlt m n variance_cumsum.
  assert (Hn : n = m) by (subst n m; unfold clamp_n_pcs; lia).
  assert (Hc : length variance_cumsum = length variance_ratio)
    by apply length_np_cumsum.
  split; [done|]. split; [lia|]. split; [lia|].
  assert (Hs1 : slice_to n variance_ratio = variance_ratio).
  { rewrite Hn. apply slice_to_all. }
  assert (Hs2 : slice_to n variance_cumsum = variance_cumsum).
  { rewrite Hn. subst m. rewrite <- Hc. apply slice_to_all. }
  split; [done|]. split; [done|].
  destruct (plot_pca_variance_drawn fadd fmul of_int n_pcs log threshold figsize
              save_path return_fig a info variance_ratio w Hs Hinfo Hvr)
    as (ax1 & ax2 & Hl1 & Hl2 & ->); [lia|].
  fold n variance_cumsum in Hl1, Hl2. rewrite Hs1, Hn in Hl1.
  rewrite Hs2, Hn in Hl2.
  rewrite finish_figure_run. simpl. eexists. split; [done|].
  split_and!.
  - by destruct threshold.
  - by destruct threshold.
  - rewrite length_py_range_unit by lia. subst m. lia.
Qed.

Lemma plot_pca_variance_clamps_witness :
  let w := (demo_run plain_adata 2 false true).2 in
  clamp_n_pcs 50 [2; 1] = 2
  ∧ slice_to (clamp_n_pcs 50 [2; 1]) [2; 1] = [2; 1]
  ∧ slice_to (clamp_n_pcs 50 [2; 1]) (np_cumsum Z.add [2; 1]) = [2; 3]
  ∧ ∃ fig, (demo_plot w 50 None true).1 = Ret (Some fig)
           ∧ ax_lines (fig_ax1 fig) = [Line2D [1; 2] [200; 100] "o-"]
           ∧ ax_lines (fig_ax2 fig) = [Line2D [1; 2] [200; 300] "o-"].
Proof.
  destruct (plot_pca_variance_clamps Z.add Z.mul id 50 false None (10, 4)
              None true
              (spread_pca plain_adata (PcaArgs 2 "arpack" 42 false)).2
              {["variance_ratio" := [2; 1]]} [2; 1]
              (demo_run plain_adata 2 false true).2)
    as (Hn & _ & _ & Hs1 & Hs2 & fig & Hret & Hl1 & Hl2 & _).
  - vm_compute. reflexivity.
  - vm_compute. reflexivity.
  - reflexivity.
  - simpl. lia.
  - split; [exact Hn|]. split; [exact Hs1|]. split; [exact Hs2|].
    exists fig. split; [exact Hret|]. split; [exact Hl1|exact Hl2].
Defined.

(** * Further properties of run_pca *)

(** ** What is printed *)

Section silence.
Context {F : Type}.
Variable fzero : F.
Variable sc_tl_pca : AnnData F → pca_args → option pyexn * AnnData F.

Lemma silent_ret {A} (a : A) : silent (mret a : M F A).
Proof. by intros w. Qed.

Lemma silent_raise {A} (e : raised) : silent (raise e : M F A).
Proof. by intros w. Qed.

Lemma silent_bind {A B} (m : M F A) (k : A → M F B) :
  silent m → (∀ a, silent (k a)) → silent (m ≫= k).
Proof.
  intros Hm Hk w. rewrite bind_run. specialize (Hm w).
  destruct (m w) as [[x|e] w1]; simpl in *; [|done].
  destruct (Hk x w1) as (-> & -> & ->). done.
Qed.

Lemma silent_lift {A} (callee : string) (r : pyexn + A) :
  silent (lift_lib callee r : M F A).
Proof. by destruct r. Qed.

Lemma silent_deref (l : loc) : silent (deref (F:=F) l).
Proof. intros w. unfold deref. by destruct (heap w !! l). Qed.

Lemma silent_if {A} (b : bool) (m1 m2 : M F A) :
  silent m1 → silent m2 → silent (if b then m1 else m2).
Proof. by destruct b. Qed.

Lemma silent_store (l : loc) (a : AnnData F) : silent (store l a).
Proof. by intros w. Qed.

Lemma silent_set_self (l : loc) : silent (set_self (F:=F) l).
Proof. by intros w. Qed.

Ltac solve_silent :=
  repeat first
    [ apply silent_ret
    | apply silent_raise
    | apply silent_lift
    | apply silent_deref
    | apply silent_store
    | apply silent_set_self
    | apply silent_if
    | apply silent_bind; [|intros ?] ].

Lemma silent_call_pca (l : loc) (args : pca_args) :
  silent (call_pca sc_tl_pca l args).
Proof.
  unfold call_pca. apply silent_bind; [apply silent_deref|intros a].
  destruct (sc_tl_pca a args) as [[e|] a']; solve_silent.
Qed.

(** Everything after line 157 is silent. *)
Lemma silent_after_selection (n_comps : Z) (use_highly_variable : bool)
    (args : pca_args) (return_info inplace : bool) (adata adata_use : loc) :
  silent (call_pca sc_tl_pca adata_use args;;
          copy_back ← restrict_to_hvg use_highly_variable adata;
          (if copy_back : bool
           then copy_results fzero n_comps adata adata_use else mret tt);;
          give_back return_info inplace adata).
Proof.
  apply silent_bind; [apply silent_call_pca|intros _].
  unfold restrict_to_hvg, copy_results, copy_loadings, give_back, wants_info,
    has_column, var_column, obsm_get, obsm_set, varm_has, varm_get, varm_set,
    uns_has, uns_get, uns_set.
  solve_silent.
Qed.
End silence.

(** X1. [run_pca] prints its announcement, then the count of flagged genes
    when it restricts, and nothing else; it shows no figure and writes no
    file.  This holds whatever the routine does, and also when the call
    ends in an exception: both lines are printed before the routine runs. *)
Theorem run_pca_prints {F} (fzero : F)
    (sc_tl_pca : AnnData F → pca_args → option pyexn * AnnData F)
    (n_comps : Z) (use_highly_variable : bool) (svd_solver : string)
    (random_state : Z) (return_info inplace : bool)
    (a : AnnData F) (w : world F) :
  heap w !! self_adata w = Some a →
  let after := (run_pca fzero sc_tl_pca n_comps use_highly_variable svd_solver
                        random_state return_info inplace w).2 in
  stdout after
  = stdout w ++ announce n_comps
      :: match var a !! "highly_variable" with
         | Some hv => if use_highly_variable then [announce_hvg hv] else []
         | None => []
         end
  ∧ shown after = shown w
  ∧ files after = files w.
Proof.
  intros Hs after. subst after. unfold run_pca.
  rewrite bind_run. unfold print.
  rewrite bind_run, (working_handle_run _ a) by done.
  pose proof (working_heap_target inplace a w Hs) as Ht.
  set (w1 := if inplace then _ else _).
  assert (Hw1 : w1 = World (working_heap inplace a w) (self_adata w)
                       (stdout w ++ [announce n_comps]) (shown w) (files w)).
  { subst w1. unfold working_heap. by destruct inplace. }
  rewrite Hw1. clear w1 Hw1. change (target inplace _) with (target inplace w).
  rewrite bind_run.
  set (args := PcaArgs n_comps svd_solver random_state return_info).
  destruct (restricted use_highly_variable a) eqn:Hr.
  - apply restricted_true in Hr as (hv & -> & Hhv & _). rewrite Hhv.
    rewrite (handle_in_use_restricted _ a hv) by done. cbv beta iota.
    pose proof (silent_after_selection fzero sc_tl_pca n_comps true args
                  return_info inplace (target inplace w)
                  (length (working_heap inplace a w))) as Hsil.
    rewrite (proj1 (Hsil _)), (proj1 (proj2 (Hsil _))), (proj2 (proj2 (Hsil _))).
    simpl. by rewrite <- app_assoc.
  - rewrite (handle_in_use_plain _ _ a) by done. cbv beta iota.
    pose proof (silent_after_selection fzero sc_tl_pca n_comps
                  use_highly_variable args return_info inplace
                  (target inplace w) (target inplace w)) as Hsil.
    rewrite (proj1 (Hsil _)), (proj1 (proj2 (Hsil _))), (proj2 (proj2 (Hsil _))).
    simpl. split; [|done]. f_equal. f_equal.
    unfold restricted in Hr.
    destruct use_highly_variable, (var a !! "highly_variable"); done.
Qed.

Lemma run_pca_prints_witness :
  (stdout (demo_run demo_adata 2 true true).2
   = ["Running PCA with 2 components"; "Using 2 highly variable genes for PCA"]
   ∧ shown (demo_run demo_adata 2 true true).2 = []
   ∧ files (demo_run demo_adata 2 true true).2 = ∅)
  ∧ is_ret (demo_run demo_adata 2 true true).1 = false.
Proof.
  split; [|reflexivity].
  exact (run_pca_prints 0 spread_pca 2 true "arpack" 42 false true demo_adata
           (world_of demo_adata) eq_refl).
Defined.

(** ** What is returned *)

(** X2. The value of a returning call is fixed by the two flags and the
    dataset the call worked on: a handle is returned in copy mode only, and
    it is the new one; the info dictionary is returned only when
    [return_info] is set, and then it is [uns['pca']] of that dataset, so
    with [return_info=True] and no ['pca'] entry the call returns [None] in
    place and the bare handle in copy mode. *)
Theorem run_pca_return_value {F} (fzero : F)
    (sc_tl_pca : AnnData F → pca_args → option pyexn * AnnData F)
    (n_comps : Z) (use_highly_variable : bool) (svd_solver : string)
    (random_state : Z) (return_info inplace : bool)
    (a : AnnData F) (w w' : world F) (r : retval F) :
  keeps_var sc_tl_pca →
  heap w !! self_adata w = Some a →
  run_pca fzero sc_tl_pca n_comps use_highly_variable svd_solver random_state
          return_info inplace w = (Ret r, w') →
  ∃ a', heap w' !! target inplace w = Some a'
        ∧ returned_handle r = (if inplace then None else Some (target inplace w))
        ∧ returned_info r = (if return_info then uns a' !! "pca" else None).
Proof.
  intros Hkeep Hs Hrun.
  pose proof (working_heap_target inplace a w Hs) as Ht.
  set (args := PcaArgs n_comps svd_solver random_state return_info).
  assert (Hshape : ∀ a', r = returned return_info inplace (target inplace w) a' →
            returned_handle r = (if inplace then None else Some (target inplace w))
            ∧ returned_info r = (if return_info then uns a' !! "pca" else None)).
  { intros a' ->. unfold returned.
    destruct return_info, inplace; simpl; by destruct (uns a' !! "pca"). }
  destruct (restricted use_highly_variable a) eqn:Hr.
  - apply restricted_true in Hr as (hv & -> & Hhv & _).
    rewrite (run_pca_restricted _ _ _ _ _ _ _ a hv) in Hrun by done.
    fold args in Hrun. simpl in Hrun.
    destruct (sc_tl_pca (subset_vars hv a) args).1; [done|].
    destruct (merge_results fzero n_comps a _).1 eqn:Hm; [|done].
    injection Hrun as <- <-. eexists. split; [|by apply Hshape].
    simpl. eapply lookup_insert_here. heap_lookup.
  - rewrite (run_pca_plain _ _ _ _ _ _ _ _ a) in Hrun; [|done..|].
    + fold args in Hrun. destruct (sc_tl_pca a args).1; [done|].
      injection Hrun as <- <-. eexists. split; [|by apply Hshape].
      simpl. by eapply lookup_insert_here.
    + intros _. rewrite <- Hr. apply restricted_same_var.
      destruct (sc_tl_pca a _) as [r0 a0] eqn:Hp. by eapply Hkeep.
Qed.

Lemma run_pca_return_value_witness :
  ∃ a', heap (run_pca 0 spread_pca 1 true "arpack" 42 true true
                (world_of demo_adata)).2
          !! target true (world_of demo_adata) = Some a'
        ∧ returned_handle (RInfo (F:=Z) {["variance_ratio" := [1]]}) = None
        ∧ returned_info (RInfo (F:=Z) {["variance_ratio" := [1]]})
          = uns a' !! "pca".
Proof.
  apply (run_pca_return_value 0 spread_pca 1 true "arpack" 42 true true
           demo_adata (world_of demo_adata)
           (run_pca 0 spread_pca 1 true "arpack" 42 true true
              (world_of demo_adata)).2
           (RInfo {["variance_ratio" := [1]]}) spread_pca_keeps_var eq_refl).
  vm_compute. reflexivity.
Defined.

(** ** What the restriction keeps from the dataset *)

Section restricted_frame.
Context {F : Type}.
Variable fzero : F.

Lemma merge_loadings_other_slots (n_comps : Z) (a u : AnnData F) (k : string) :
  k ≠ "PCs" →
  varm (merge_loadings fzero n_comps a u).2 !! k = varm a !! k.
Proof.
  intros Hk. unfold merge_loadings.
  destruct (varm u !! "PCs"); [|done].
  destruct (np_zeros _ _ _); [done|].
  destruct (var a !! "highly_variable"); simpl; [|by rewrite lookup_insert_ne].
  destruct (setitem_mask _ _ _); simpl; by rewrite lookup_insert_ne.
Qed.

(** The copy-back writes the three result slots of the dataset and nothing
    else, however far it gets. *)
Lemma merge_results_other_slots (n_comps : Z) (a u : AnnData F) :
  let a' := (merge_results fzero n_comps a u).2 in
  X a' = X a ∧ var a' = var a
  ∧ (∀ k, k ≠ "X_pca" → obsm a' !! k = obsm a !! k)
  ∧ (∀ k, k ≠ "PCs" → varm a' !! k = varm a !! k)
  ∧ (∀ k, k ≠ "pca" → uns a' !! k = uns a !! k).
Proof.
  destruct (merge_results_frame fzero n_comps a u) as [HX Hvar].
  simpl. split; [done|]. split; [done|].
  unfold merge_results. destruct (obsm u !! "X_pca") as [e|]; [|done].
  pose proof (merge_loadings_frame fzero n_comps (with_obsm "X_pca" e a) u)
    as (_ & _ & Hobsm & Huns).
  pose proof (merge_loadings_other_slots n_comps (with_obsm "X_pca" e a) u)
    as Hvarm.
  destruct (merge_loadings _ _ _ _) as [[[]|ex] a']; simpl in *.
  - destruct (uns u !! "pca"); simpl; rewrite Hobsm, ?Huns; split_and!;
      intros k Hk; rewrite ?lookup_insert_ne by done; auto.
  - rewrite Hobsm, Huns. split_and!; intros k Hk;
      rewrite ?lookup_insert_ne by done; auto.
Qed.
End restricted_frame.

(** X3. With the restriction in force the routine only ever sees the
    restricted object: whatever it does, and however the call ends, the
    dataset the call works on keeps its matrix, its per-gene table and every
    slot other than [obsm['X_pca']], [varm['PCs']] and [uns['pca']]; and when
    the routine raises, that dataset is exactly as it was, in place too. *)
Theorem run_pca_restricted_frame {F} (fzero : F)
    (sc_tl_pca : AnnData F → pca_args → option pyexn * AnnData F)
    (n_comps : Z) (svd_solver : string) (random_state : Z)
    (return_info inplace : bool)
    (a : AnnData F) (hv : list bool) (w : world F) :
  heap w !! self_adata w = Some a →
  var a !! "highly_variable" = Some hv →
  let args := PcaArgs n_comps svd_solver random_state return_info in
  let after := (run_pca fzero sc_tl_pca n_comps true svd_solver random_state
                        return_info inplace w).2 in
  ∃ a', heap after !! target inplace w = Some a'
        ∧ X a' = X a ∧ var a' = var a
        ∧ (∀ k, k ≠ "X_pca" → obsm a' !! k = obsm a !! k)
        ∧ (∀ k, k ≠ "PCs" → varm a' !! k = varm a !! k)
        ∧ (∀ k, k ≠ "pca" → uns a' !! k = uns a !! k)
        ∧ (is_Some (sc_tl_pca (subset_vars hv a) args).1 → a' = a).
Proof.
  intros Hs Hhv args after. subst after.
  pose proof (working_heap_target inplace a w Hs) as Ht.
  rewrite (run_pca_restricted _ _ _ _ _ _ _ a hv) by done. fold args. simpl.
  destruct (sc_tl_pca (subset_vars hv a) args).1 as [ex|]; simpl.
  - exists a. split; [heap_lookup|]. done.
  - destruct (merge_results_other_slots fzero n_comps a
                (sc_tl_pca (subset_vars hv a) args).2)
      as (HX & Hvar & Ho & Hv & Hu).
    eexists. split; [eapply lookup_insert_here; heap_lookup|].
    split_and!; done.
Qed.

Lemma run_pca_restricted_frame_witness :
  ∃ a', heap (demo_run demo_adata 2 true true).2
          !! target true (world_of demo_adata) = Some a'
        ∧ a' = demo_adata.
Proof.
  destruct (run_pca_restricted_frame 0 spread_pca 2 "arpack" 42 false true
              demo_adata [true; true; false] (world_of demo_adata)
              eq_refl eq_refl)
    as (a' & Hl & _ & _ & _ & _ & _ & Hsame).
  exists a'. split; [exact Hl|]. apply Hsame. eexists. reflexivity.
Defined.

(** X4. Without the restriction the wrapper adds nothing of its own: the
    dataset the call works on ends exactly as the routine left it, also
    when the routine raises (what it wrote before raising stays, in place
    on the held dataset). *)
Theorem run_pca_unrestricted_is_routine {F} (fzero : F)
    (sc_tl_pca : AnnData F → pca_args → option pyexn * AnnData F)
    (n_comps : Z) (use_highly_variable : bool) (svd_solver : string)
    (random_state : Z) (return_info inplace : bool)
    (a : AnnData F) (w : world F) :
  keeps_var sc_tl_pca →
  heap w !! self_adata w = Some a →
  restricted use_highly_variable a = false →
  let args := PcaArgs n_comps svd_solver random_state return_info in
  let after := (run_pca fzero sc_tl_pca n_comps use_highly_variable svd_solver
                        random_state return_info inplace w).2 in
  heap after !! target inplace w = Some (sc_tl_pca a args).2
  ∧ length (heap after) = length (working_heap inplace a w).
Proof.
  intros Hkeep Hs Hr args after. subst after.
  pose proof (working_heap_target inplace a w Hs) as Ht.
  rewrite (run_pca_plain _ _ _ _ _ _ _ _ a); [|done..|].
  - fold args. simpl. split; [by eapply lookup_insert_here|].
    apply length_insert.
  - intros _. rewrite <- Hr. apply restricted_same_var.
    destruct (sc_tl_pca a _) as [r0 a0] eqn:Hp. by eapply Hkeep.
Qed.

Lemma run_pca_unrestricted_is_routine_witness :
  heap (demo_run demo_adata 1 false true).2 !! target true (world_of demo_adata)
  = Some (spread_pca demo_adata (PcaArgs 1 "arpack" 42 false)).2
  ∧ length (heap (demo_run demo_adata 1 false true).2)
    = length (working_heap true demo_adata (world_of demo_adata)).
Proof.
  exact (run_pca_unrestricted_is_routine 0 spread_pca 1 false "arpack" 42 false
           true demo_adata (world_of demo_adata) spread_pca_keeps_var
           eq_refl eq_refl).
Defined.

(** ** When every gene is flagged *)

Lemma count_true_all (mask : list bool) :
  Forall (λ b, b = true) mask → count_true mask = length mask.
Proof.
  induction 1 as [|b mask -> _ IH]; [done|].
  rewrite count_true_cons. simpl. by rewrite IH.
Qed.

Lemma mask_scatter_all {A} (mask : list bool) (dst src : list A) :
  Forall (λ b, b = true) mask →
  length dst = length mask → length src = length mask →
  mask_scatter mask dst src = src.
Proof.
  intros Hall. revert dst src.
  induction Hall as [|b mask -> _ IH]; intros [|d dst] [|s src] Hd Hs; try done.
  simpl in *. f_equal. apply IH; lia.
Qed.

(** The copy-back when the routine gives an embedding and loadings with one
    row per flagged gene and [n_comps] columns. *)
Lemma merge_results_scattered {F} (fzero : F) (n_comps : Z) (a u : AnnData F)
    (hv : list bool) (e v : ndarray F) :
  var a !! "highly_variable" = Some hv →
  length hv = n_vars a →
  obsm u !! "X_pca" = Some e →
  varm u !! "PCs" = Some v →
  nrow v = count_true hv →
  Z.of_nat (ncol v) = n_comps →
  merge_results fzero n_comps a u
  = (Ret tt,
     let p := NdArray (n_vars a) (ncol v)
                (mask_scatter hv (replicate (n_vars a) (zero_row fzero (ncol v)))
                              (rows v)) in
     let a1 := with_varm "PCs" p (with_obsm "X_pca" e a) in
     match uns u !! "pca" with
     | Some info => with_uns "pca" info a1
     | None => a1
     end).
Proof.
  intros Hhv Hlen He Hv Hrows Hcols.
  destruct (np_zeros_shape fzero (n_vars a) n_comps)
    as (z & Hz & Hzr & Hzc & Hzrows); [lia|].
  assert (Hcv : ncol z = ncol v) by lia.
  unfold merge_results, merge_loadings. rewrite He, Hv. simpl.
  change (n_vars (with_obsm "X_pca" e a)) with (n_vars a). rewrite Hz, Hhv.
  rewrite setitem_mask_exact by (done || lia).
  assert (Hc : Z.to_nat n_comps = ncol v) by lia.
  by rewrite Hzrows, Hzr, Hcv, Hc.
Qed.

(** X5. When every gene is flagged, the restriction drops nothing and no
    row is padded: the loadings stored in [varm['PCs']] are the routine's
    loadings themselves. *)
Theorem run_pca_all_flagged {F} (fzero : F)
    (sc_tl_pca : AnnData F → pca_args → option pyexn * AnnData F)
    (n_comps : Z) (svd_solver : string) (random_state : Z)
    (return_info inplace : bool)
    (a u : AnnData F) (hv : list bool) (v : ndarray F) (w : world F) :
  heap w !! self_adata w = Some a →
  var a !! "highly_variable" = Some hv →
  length hv = n_vars a →
  Forall (λ b, b = true) hv →
  sc_tl_pca (subset_vars hv a)
            (PcaArgs n_comps svd_solver random_state return_info) = (None, u) →
  is_Some (obsm u !! "X_pca") →
  varm u !! "PCs" = Some v →
  well_shaped v →
  nrow v = n_vars (subset_vars hv a) →
  Z.of_nat (ncol v) = n_comps →
  ∃ r w' a',
    run_pca fzero sc_tl_pca n_comps true svd_solver random_state return_info
            inplace w = (Ret r, w')
    ∧ heap w' !! target inplace w = Some a'
    ∧ varm a' !! "PCs" = Some v.
Proof.
  intros Hs Hhv Hlen Hall Hp [e He] Hv [Hvr _] Hrows Hcols.
  pose proof (working_heap_target inplace a w Hs) as Ht.
  pose proof (count_true_all hv Hall) as Hcount.
  change (n_vars (subset_vars hv a)) with (count_true hv) in Hrows.
  rewrite (run_pca_restricted _ _ _ _ _ _ _ a hv) by done. rewrite Hp. simpl.
  rewrite (merge_results_scattered fzero n_comps a u hv e v) by done. simpl.
  eexists _, _, _. split; [done|]. split.
  - simpl. eapply lookup_insert_here. heap_lookup.
  - rewrite mask_scatter_all
      by (done || rewrite ?length_replicate; lia).
    assert (Hv' : NdArray (n_vars a) (ncol v) (rows v) = v).
    { destruct v as [nr nc rs]. simpl in *. f_equal. lia. }
    rewrite Hv'. destruct (uns u !! "pca"); simpl; by rewrite lookup_insert_eq.
Qed.

Lemma run_pca_all_flagged_witness :
  ∃ r w' a',
    run_pca 0 spread_pca 1 true "arpack" 42 false true (world_of flagged_adata)
    = (Ret r, w')
    ∧ heap w' !! target true (world_of flagged_adata) = Some a'
    ∧ varm a' !! "PCs" = Some (NdArray 3 1 [[1]; [0]; [7]]).
Proof.
  apply (run_pca_all_flagged 0 spread_pca 1 "arpack" 42 false true
           flagged_adata
           (spread_pca (subset_vars [true; true; true] flagged_adata)
                       (PcaArgs 1 "arpack" 42 false)).2
           [true; true; true] (NdArray 3 1 [[1]; [0]; [7]])
           (world_of flagged_adata)).
  - reflexivity.
  - reflexivity.
  - reflexivity.
  - by repeat constructor.
  - vm_compute. reflexivity.
  - eexists. vm_compute. reflexivity.
  - vm_compute. reflexivity.
  - split; [reflexivity|]. by repeat constructor.
  - reflexivity.
  - reflexivity.
Defined.

(** * Further properties of plot_pca_variance *)

(** X6. As far as the source goes (line 267), [plot_pca_variance] only
    reads.  When it raises, nothing has changed: no slot of the dataset, no
    output, no figure shown, no file written.  Otherwise the drawn figure
    reaches the last step in the state the call started in. *)
Theorem plot_pca_variance_only_reads {F} (fadd fmul : F → F → F)
    (of_int : Z → F) (n_pcs : Z) (log : bool) (threshold : option F)
    (figsize : F * F) (save_path : option string) (return_fig : bool)
    (w : world F) :
  let call := plot_pca_variance fadd fmul of_int n_pcs log threshold figsize
                save_path return_fig in
  (∃ e, call w = (Raise e, w))
  ∨ (∃ fig, call w = finish_figure threshold save_path return_fig fig w).
Proof.
  intros call.
  cut (∀ res, call w = res →
         (∃ e, res = (Raise e, w))
         ∨ (∃ fig, res = finish_figure threshold save_path return_fig fig w)).
  { intros Hcut. by apply Hcut. }
  intros res <-. subst call. unfold plot_pca_variance.
  rewrite bind_run. simpl. rewrite bind_run. unfold deref.
  destruct (heap w !! self_adata w) as [a|] eqn:Hs; [|left; by eexists].
  destruct (diagnostics_absent a); [left; by eexists|].
  rewrite bind_run, (uns_get_run _ _ a) by done.
  destruct (uns a !! "pca") as [info|]; simpl; [|left; by eexists].
  rewrite bind_run.
  destruct (info !! "variance_ratio") as [vr|]; simpl; [|left; by eexists].
  rewrite bind_run.
  destruct (variance_axes _ _ _ _ _) as [ex|ax1]; simpl; [left; by eexists|].
  rewrite bind_run.
  destruct (cumulative_axes _ _ _ _) as [ex|ax2]; simpl; [left; by eexists|].
  right. by eexists.
Qed.

(** X7. The clamp of line 248 does not guard a negative count: for
    [n_pcs < 0] with fewer than [m] components dropped, [range(1, n_pcs + 1)]
    is empty while [variance_ratio[:n_pcs]] is not, so the first
    [ax1.plot] is refused by matplotlib with a [ValueError], and nothing is
    shown or written. *)
Theorem plot_pca_variance_negative_count {F} (fadd fmul : F → F → F)
    (of_int : Z → F) (n_pcs : Z) (log : bool) (threshold : option F)
    (figsize : F * F) (save_path : option string) (return_fig : bool)
    (a : AnnData F) (info : info_dict F) (variance_ratio : list F) (w : world F) :
  heap w !! self_adata w = Some a →
  uns a !! "pca" = Some info →
  info !! "variance_ratio" = Some variance_ratio →
  n_pcs < 0 →
  - n_pcs < Z.of_nat (length variance_ratio) →
  ∃ msg,
    plot_pca_variance fadd fmul of_int n_pcs log threshold figsize save_path
                      return_fig w
    = (Raise (Lib "matplotlib" (ValueError msg)), w).
Proof.
  intros Hs Hinfo Hvr Hneg Hlen. unfold plot_pca_variance.
  rewrite bind_run. simpl. rewrite bind_run, (deref_run _ a) by done.
  unfold diagnostics_absent. rewrite Hinfo, Hvr. simpl.
  rewrite bind_run, (uns_get_run _ _ a), Hinfo by done.
  rewrite Hvr. simpl. rewrite bind_run. unfold mret at 1, M_ret at 1.
  rewrite bind_run.
  assert (Hn : clamp_n_pcs n_pcs variance_ratio = n_pcs)
    by (unfold clamp_n_pcs; lia).
  rewrite Hn. unfold variance_axes, ax_plot.
  rewrite bool_decide_eq_false_2; [by eexists|].
  unfold py_range. rewrite length_range_go, length_times_100.
  unfold slice_to. rewrite (proj2 (Z.leb_gt 0 n_pcs)) by lia.
  rewrite length_take, Z.div_1_r. lia.
Qed.

Lemma plot_pca_variance_negative_count_witness :
  ∃ msg, demo_plot (demo_run plain_adata 2 false true).2 (-1) None true
         = (Raise (Lib "matplotlib" (ValueError msg)),
            (demo_run plain_adata 2 false true).2).
Proof.
  refine (plot_pca_variance_negative_count Z.add Z.mul id (-1) false None
            (10, 4) None true
            (spread_pca plain_adata (PcaArgs 2 "arpack" 42 false)).2
            {["variance_ratio" := [2; 1]]} [2; 1]
            (demo_run plain_adata 2 false true).2 _ _ _ _ _).
  - vm_compute. reflexivity.
  - vm_compute. reflexivity.
  - reflexivity.
  - lia.
  - simpl. lia.
Defined.

(** ** The points and the ticks of the first chart *)

Lemma range_go_lookup (fuel : nat) (start step : Z) (i : nat) :
  (i < fuel)%nat →
  range_go fuel start step !! i = Some (start + Z.of_nat i * step).
Proof.
  revert start i. induction fuel as [|fuel IH]; intros start [|i] Hi; try lia.
  - simpl. f_equal. lia.
  - simpl. rewrite IH by lia. f_equal. lia.
Qed.

Lemma elem_of_range_go (fuel : nat) (start step t : Z) :
  t ∈ range_go fuel start step
  ↔ ∃ i : nat, (i < fuel)%nat ∧ t = start + Z.of_nat i * step.
Proof.
  rewrite list_elem_of_lookup. split.
  - intros [i Hi]. exists i.
    assert (Hlt : (i < fuel)%nat).
    { apply lookup_lt_Some in Hi. by rewrite length_range_go in Hi. }
    rewrite range_go_lookup in Hi by done. split; [done|congruence].
  - intros (i & Hlt & ->). exists i. by apply range_go_lookup.
Qed.

(** [range(start, stop, step)] for a positive step holds the numbers
    [start + k * step] below [stop]. *)
Lemma elem_of_py_range (start stop step t : Z) :
  0 < step →
  t ∈ py_range start stop step
  ↔ ∃ k, 0 ≤ k ∧ t = start + k * step ∧ t < stop.
Proof.
  intros Hstep. unfold py_range. rewrite elem_of_range_go.
  set (q := (stop - start + step - 1) / step).
  assert (Hq1 : step * q ≤ stop - start + step - 1)
    by (apply Z.mul_div_le; lia).
  assert (Hq2 : stop - start + step - 1 < step * (q + 1)).
  { pose proof (Z.mod_pos_bound (stop - start + step - 1) step Hstep).
    pose proof (Z.div_mod (stop - start + step - 1) step). fold q in H0. lia. }
  split.
  - intros (i & Hi & ->). exists (Z.of_nat i). split; [lia|]. split; [done|].
    assert (Z.of_nat i + 1 ≤ q) by lia. nia.
  - intros (k & Hk & -> & Hlt). exists (Z.to_nat k).
    rewrite Z2Nat.id by done. split; [|done].
    assert (k < q) by nia. lia.
Qed.

(** X8. When the first chart is drawn for the count [n], it has one point
    per component [1..n], its values are the first [n] ratios times 100,
    the ticks stand at 1, 6, 11, ... up to [n], and the y axis is
    logarithmic exactly when [log] is set. *)
Theorem variance_axes_points_and_ticks {F} (fmul : F → F → F) (of_int : Z → F)
    (n : Z) (log : bool) (variance_ratio : list F) (ax : axes F) :
  variance_axes fmul of_int n log variance_ratio = inr ax →
  ∃ xs ticks,
    ax_lines ax
    = [Line2D xs (times_100 fmul of_int (slice_to n variance_ratio)) "o-"]
    ∧ length xs = length (slice_to n variance_ratio)
    ∧ (∀ t, t ∈ xs ↔ 1 ≤ t ≤ n)
    ∧ ax_xticks ax = Some ticks
    ∧ (∀ t, t ∈ ticks ↔ ∃ k, 0 ≤ k ∧ t = 1 + 5 * k ∧ t ≤ n)
    ∧ ax_yscale ax = (if log then "log" else "linear").
Proof.
  unfold variance_axes, ax_plot. case_bool_decide as Hlen; [|done].
  intros [= <-]. exists (py_range 1 (n + 1) 1), (py_range 1 (n + 1) 5).
  split_and!.
  - by destruct log.
  - by rewrite Hlen, length_times_100.
  - intros t. rewrite elem_of_py_range by lia. split.
    + intros (k & Hk & -> & Hlt). lia.
    + intros Ht. exists (t - 1). lia.
  - by destruct log.
  - intros t. rewrite elem_of_py_range by lia. split.
    + intros (k & Hk & -> & Hlt). exists k. lia.
    + intros (k & Hk & -> & Hle). exists k. lia.
  - by destruct log.
Qed.

Lemma variance_axes_points_and_ticks_witness :
  ∃ ax xs ticks,
    variance_axes Z.mul id 7 true [7; 6; 5; 4; 3; 2; 1; 0] = inr ax
    ∧ ax_lines ax = [Line2D xs [700; 600; 500; 400; 300; 200; 100] "o-"]
    ∧ (∀ t, t ∈ xs ↔ 1 ≤ t ≤ 7)
    ∧ ax_xticks ax = Some ticks
    ∧ (∀ t, t ∈ ticks ↔ ∃ k, 0 ≤ k ∧ t = 1 + 5 * k ∧ t ≤ 7)
    ∧ ticks = [1; 6]
    ∧ ax_yscale ax = "log".
Proof.
  destruct (variance_axes Z.mul id 7 true [7; 6; 5; 4; 3; 2; 1; 0])
    as [ex|ax] eqn:Hax; [discriminate Hax|].
  destruct (variance_axes_points_and_ticks Z.mul id 7 true
              [7; 6; 5; 4; 3; 2; 1; 0] ax Hax)
    as (xs & ticks & Hl & _ & Hxs & Ht & Hticks & Hy).
  exists ax, xs, ticks. split; [reflexivity|]. split; [exact Hl|].
  split; [exact Hxs|]. split; [exact Ht|]. split; [exact Hticks|].
  split; [|exact Hy].
  injection Hax as <-. simpl in Ht. by injection Ht as <-.
Defined.

(** ** The cumulative series *)

(** X9. Cutting the cumulative sums at a stop gives the cumulative sums of
    the ratios cut at that stop: the cumulative chart over the first [n]
    components shows the running totals of exactly the components the
    first chart shows (for a negative stop as well). *)
Theorem slice_of_cumsum {F} (fadd : F → F → F) (n : Z) (variance_ratio : list F) :
  slice_to n (np_cumsum fadd variance_ratio)
  = np_cumsum fadd (slice_to n variance_ratio).
Proof.
  assert (Hfrom : ∀ (k : nat) acc l,
            take k (cumsum_from fadd acc l) = cumsum_from fadd acc (take k l)).
  { intros k. induction k as [|k IH]; intros acc [|x l]; try done.
    simpl. by rewrite IH. }
  assert (Htake : ∀ (k : nat) l,
            take k (np_cumsum fadd l) = np_cumsum fadd (take k l)).
  { intros [|k] [|x l]; try done. unfold np_cumsum. simpl. by rewrite Hfrom. }
  unfold slice_to. rewrite length_np_cumsum. by destruct (0 <=? n).
Qed.

Section cumulative_order.
Context {F : Type}.
Variable fzero : F.
Variable fadd : F → F → F.
Variable le : F → F → Prop.

(** Adding a number that is not negative does not decrease a sum: true of
    exact and of rounded addition alike. *)
Hypothesis add_nonneg : ∀ x y, le fzero y → le x (fadd x y).

Lemma cumsum_from_step (acc : F) (l : list F) (i : nat) (x y : F) :
  Forall (le fzero) l →
  (acc :: cumsum_from fadd acc l) !! i = Some x →
  (acc :: cumsum_from fadd acc l) !! S i = Some y →
  le x y.
Proof.
  revert acc i. induction l as [|z l IH]; intros acc i Hl Hx Hy.
  { by destruct i. }
  apply Forall_cons in Hl as [Hz Hl]. destruct i as [|i]; simpl in *.
  - injection Hx as <-. injection Hy as <-. by apply add_nonneg.
  - by eapply (IH (fadd acc z) i).
Qed.

(** X10. When no variance ratio is negative, the cumulative series of
    line 245 never decreases from one component to the next. *)
Theorem np_cumsum_nondecreasing (variance_ratio : list F) (i : nat) (x y : F) :
  Forall (le fzero) variance_ratio →
  np_cumsum fadd variance_ratio !! i = Some x →
  np_cumsum fadd variance_ratio !! S i = Some y →
  le x y.
Proof.
  destruct variance_ratio as [|x0 l]; [done|]. intros Hl.
  apply Forall_cons in Hl as [_ Hl]. unfold np_cumsum.
  by apply cumsum_from_step.
Qed.
End cumulative_order.

Lemma Z_add_nonneg (x y : Z) : 0 ≤ y → x ≤ x + y.
Proof. lia. Qed.

Lemma np_cumsum_nondecreasing_witness :
  np_cumsum Z.add [5; 3; 0; 2] = [5; 8; 8; 10] ∧ 8 ≤ 10.
Proof.
  split; [reflexivity|].
  apply (np_cumsum_nondecreasing 0 Z.add Z.le
           Z_add_nonneg
           [5; 3; 0; 2] 2 8 10).
  - repeat constructor; lia.
  - reflexivity.
  - reflexivity.
Defined.

(** * The guard of line 171 *)

(** X11. When the restricted object has no loadings after the routine
    returned an embedding, the guard of line 171 skips the zero matrix
    altogether: the call returns, the embedding is stored on the dataset,
    and [varm] is left exactly as it was (no ['PCs'] entry is created). *)
Theorem run_pca_without_loadings {F} (fzero : F)
    (sc_tl_pca : AnnData F → pca_args → option pyexn * AnnData F)
    (n_comps : Z) (svd_solver : string) (random_state : Z)
    (return_info inplace : bool)
    (a u : AnnData F) (hv : list bool) (e : ndarray F) (w : world F) :
  heap w !! self_adata w = Some a →
  var a !! "highly_variable" = Some hv →
  sc_tl_pca (subset_vars hv a)
            (PcaArgs n_comps svd_solver random_state return_info) = (None, u) →
  obsm u !! "X_pca" = Some e →
  varm u !! "PCs" = None →
  ∃ r w' a',
    run_pca fzero sc_tl_pca n_comps true svd_solver random_state return_info
            inplace w = (Ret r, w')
    ∧ heap w' !! target inplace w = Some a'
    ∧ obsm a' !! "X_pca" = Some e
    ∧ varm a' = varm a.
Proof.
  intros Hs Hhv Hp He Hv.
  pose proof (working_heap_target inplace a w Hs) as Ht.
  rewrite (run_pca_restricted _ _ _ _ _ _ _ a hv) by done. rewrite Hp. simpl.
  unfold merge_results, merge_loadings. rewrite He, Hv. simpl.
  eexists _, _, _. split; [done|]. split.
  - simpl. eapply lookup_insert_here. heap_lookup.
  - destruct (uns u !! "pca"); simpl; by rewrite lookup_insert_eq.
Qed.

Lemma run_pca_without_loadings_witness :
  ∃ r w' a',
    run_pca 0 embedding_only_pca 1 true "arpack" 42 false true
            (world_of demo_adata) = (Ret r, w')
    ∧ heap w' !! target true (world_of demo_adata) = Some a'
    ∧ obsm a' !! "X_pca" = Some (NdArray 3 1 [[6]; [6]; [7]])
    ∧ varm a' = varm demo_adata.
Proof.
  apply (run_pca_without_loadings 0 embedding_only_pca 1 "arpack" 42 false true
           demo_adata
           (embedding_only_pca (subset_vars [true; true; false] demo_adata)
                               (PcaArgs 1 "arpack" 42 false)).2
           [true; true; false] (NdArray 3 1 [[6]; [6]; [7]])
           (world_of demo_adata)).
  - reflexivity.
  - reflexivity.
  - reflexivity.
  - vm_compute. reflexivity.
  - vm_compute. reflexivity.
Defined.
